(** * LibyaLink: the [doctor] diagnostic command and the UDP buffer tuner

    A shallow embedding of [app/cmd/doctor.go], of the buffer tuner listed in
    [docs/libya_tuning.md] and of the per-platform socket option accessors,
    followed by the properties of the checks, of the report and of the tuner.

    Go strings are byte strings: [string] below is a list of bytes, [len] is
    [String.length], and a literal such as the check mark is its UTF-8
    encoding.  Go [int] values are modelled as [Z], with the 64-bit
    wrap-around written out where the code does arithmetic on them. *)

From Stdlib Require Import ZArith Ascii DecimalString Lia.
From Stdlib Require String.
From stdpp Require Import base gmap strings.

(** ** The parts of the Go standard library the commands rely on *)

Module Go.

(** The line terminator written by [fmt.Println] and by a trailing [\n]. *)
Definition nl : string := String (ascii_of_nat 10) EmptyString.

(** The verb [%d] applied to an [int]. *)
Definition itoa (z : Z) : string := NilEmpty.string_of_int (Z.to_int z).

(** [strings.Contains s substr]. *)
Fixpoint Contains (s substr : string) : bool :=
  String.prefix substr s ||
  match s with
  | EmptyString => false
  | String _ rest => Contains rest substr
  end.

(** A byte below [utf8.RuneSelf]. *)
Definition isASCIIByte (c : ascii) : bool := (N_of_ascii c <? 128)%N.

Definition isUpperByte (c : ascii) : bool :=
  (65 <=? N_of_ascii c)%N && (N_of_ascii c <=? 90)%N.

(** [c += 'a' - 'A'] for an upper-case ASCII letter; other bytes are kept. *)
Definition lowerByte (c : ascii) : ascii :=
  if isUpperByte c then ascii_of_N (N_of_ascii c + 32) else c.

Fixpoint isASCII (s : string) : bool :=
  match s with
  | EmptyString => true
  | String c rest => isASCIIByte c && isASCII rest
  end.

Fixpoint lowerASCII (s : string) : string :=
  match s with
  | EmptyString => EmptyString
  | String c rest => String (lowerByte c) (lowerASCII rest)
  end.

(** [strings.ToLower]: strings made of ASCII bytes only are lowered byte by
    byte; any other string goes through [strings.Map(unicode.ToLower, s)],
    whose Unicode tables are taken as the parameter [mapToLower]. *)
Definition ToLower (mapToLower : string -> string) (s : string) : string :=
  if isASCII s then lowerASCII s else mapToLower s.

(** Two strings that differ at most in the capitalisation of ASCII letters. *)
Fixpoint eqFoldASCII (s t : string) : bool :=
  match s, t with
  | EmptyString, EmptyString => true
  | String a s', String b t' =>
      Ascii.eqb (lowerByte a) (lowerByte b) && eqFoldASCII s' t'
  | _, _ => false
  end.

(** A continuation byte [10xxxxxx] of a UTF-8 sequence. *)
Definition isContinuationByte (c : ascii) : bool :=
  (128 <=? N_of_ascii c)%N && (N_of_ascii c <? 192)%N.

(** The number of characters (code points) a UTF-8 string encodes: every byte
    that starts a sequence counts once.  [len] counts bytes instead. *)
Fixpoint runeCount (s : string) : nat :=
  match s with
  | EmptyString => 0
  | String c rest =>
      if isContinuationByte c then runeCount rest else S (runeCount rest)
  end.

(** Arithmetic on the 64-bit [int]: a result outside the range wraps around. *)
Definition wrapInt (z : Z) : Z := ((z + 2 ^ 63) mod 2 ^ 64 - 2 ^ 63)%Z.

Definition maxInt : Z := (2 ^ 63 - 1)%Z.

(** Go [error] values: the class [os.IsNotExist] and [os.IsPermission] test
    for, and the text [%v] and [err.Error()] give. *)
Inductive errKind := ErrNotExist | ErrPermission | ErrOther.

Record error := { kind : errKind; errText : string }.

Definition IsNotExist (err : option error) : bool :=
  match err with
  | Some {| kind := ErrNotExist |} => true
  | _ => false
  end.

Definition IsPermission (err : option error) : bool :=
  match err with
  | Some {| kind := ErrPermission |} => true
  | _ => false
  end.

(** What a process does besides returning: it writes to standard output and
    it may call [os.Exit]. *)
Inductive effect :=
  | Write (s : string)
  | OsExit (code : Z).

Definition Println (s : string) : effect := Write (s +:+ nl).

(** The status the process ends with: the code of the first [os.Exit] it
    reaches, and 0 when the command function returns to the command
    framework without one. *)
Fixpoint exitStatus (tr : list effect) : Z :=
  match tr with
  | [] => 0
  | Write _ :: rest => exitStatus rest
  | OsExit code :: _ => code
  end.

End Go.

(** ** [app/cmd/doctor.go] *)

Module Doctor.
Import Go.

Definition checkOK : string := "✅".
Definition checkFail : string := "❌".
Definition checkWarn : string := "⚠️".

Record checkResult := {
  Name : string;
  Status : string; (* checkOK, checkFail, checkWarn *)
  Message : string
}.

(** *** The world around the command

    Everything the checks ask of their surroundings: the process-wide
    configuration object (viper), the file system, the certificate loader,
    the resolver and the kernel, and the library routines that are not
    spelled out in [Go].  A check reads these answers; it never changes
    them.  The one thing a check changes is the kernel's table of bound UDP
    sockets, which is threaded through separately. *)

Record FileInfo := { Size : Z }.

Record UDPAddr := { IP : string; Port : Z; Zone : string }.

#[global] Instance UDPAddr_eq_dec : EqDecision UDPAddr.
Proof. solve_decision. Defined.

#[global] Instance UDPAddr_countable : Countable UDPAddr :=
  inj_countable'
    (fun a => (IP a, Port a, Zone a))
    (fun t => {| IP := t.1.1; Port := t.1.2; Zone := t.2 |})
    (fun a => match a with Build_UDPAddr _ _ _ => eq_refl end).

Record UDPConn := { LocalAddr : UDPAddr }.

Record World := {
  (* viper *)
  ReadInConfig : option error;
  ConfigFileUsed : string;
  IsSet : string -> bool;
  GetString : string -> string;
  GetStringMapString : string -> gmap string string;
  (* os, runtime *)
  Stat : string -> error + FileInfo;
  Open : string -> option error;
  ReadFile : string -> error + string;
  GOOS : string;
  (* crypto/tls *)
  LoadX509KeyPair : string -> string -> option error;
  (* net *)
  ResolveUDPAddr : string -> error + UDPAddr;
  bindRefused : UDPAddr -> option error;
  (* strings.Map(unicode.ToLower, s), strings.TrimSpace(s), and the value
     fmt.Sscanf(s, "%d", &val) leaves in a zero-initialised val *)
  mapToLower : string -> string;
  TrimSpace : string -> string;
  SscanInt : string -> Z
}.

(** [net.ListenUDP]: the kernel refuses the bind for a reason of its own
    ([bindRefused]: a privileged port, an address the host does not have),
    or because the address is already bound; otherwise the address enters the
    table of bound sockets and stays there until the connection is closed. *)
Definition ListenUDP (w : World) (socks : gset UDPAddr) (a : UDPAddr)
  : error + (UDPConn * gset UDPAddr) :=
  match bindRefused w a with
  | Some e => inl e
  | None =>
      if decide (a ∈ socks)
      then inl {| kind := ErrOther;
                  errText := "listen udp: bind: address already in use" |}
      else inr ({| LocalAddr := a |}, {[a]} ∪ socks)
  end.

(** [conn.Close()]. *)
Definition Close (conn : UDPConn) (socks : gset UDPAddr) : gset UDPAddr :=
  socks ∖ {[LocalAddr conn]}.

Section Checks.

(** [defaultListenAddr] is declared in another file of package [cmd]. *)
Variable defaultListenAddr : string.

Definition checkConfigReadable (w : World) : list checkResult :=
  match ReadInConfig w with
  | Some err =>
      [{| Name := "Config File";
          Status := checkFail;
          Message := "Cannot read config file: " +:+ errText err |}]
  | None =>
      [{| Name := "Config File";
          Status := checkOK;
          Message := "Config loaded from: " +:+ ConfigFileUsed w |}]
  end.

Definition checkTLSACMEConflict (w : World) : list checkResult :=
  (* If config is not readable, skip *)
  if String.eqb (ConfigFileUsed w) "" then []
  else
    let hasTLS := IsSet w "tls" in
    let hasACME := IsSet w "acme" in
    if hasTLS && hasACME then
      [{| Name := "TLS/ACME";
          Status := checkFail;
          Message := "Both 'tls' and 'acme' are set. You must use one or the other, not both." |}]
    else if negb hasTLS && negb hasACME then
      [{| Name := "TLS/ACME";
          Status := checkFail;
          Message := "Neither 'tls' nor 'acme' is configured. One is required for the server to start." |}]
    else if hasTLS then
      [{| Name := "TLS/ACME";
          Status := checkOK;
          Message := "TLS mode: using local certificate files." |}]
    else
      [{| Name := "TLS/ACME";
          Status := checkOK;
          Message := "ACME mode: using automatic certificate provisioning." |}].

Definition checkFileReadable (w : World) (name path : string) : checkResult :=
  let st := Stat w path in
  let err := match st with inl e => Some e | inr _ => None end in
  if IsNotExist err then
    {| Name := name; Status := checkFail;
       Message := "File not found: " +:+ path |}
  else if IsPermission err then
    {| Name := name; Status := checkFail;
       Message := "Permission denied on " +:+ path |}
  else
    match st with
    | inl e =>
        {| Name := name; Status := checkFail;
           Message := "Error accessing " +:+ path +:+ ": " +:+ errText e |}
    | inr info =>
        (* Try actually reading *)
        match Open w path with
        | Some e =>
            {| Name := name; Status := checkFail;
               Message := "Cannot open " +:+ path +:+ ": " +:+ errText e |}
        | None =>
            (* Check file isn't empty *)
            if (Size info =? 0)%Z then
              {| Name := name; Status := checkFail;
                 Message := "File is empty: " +:+ path |}
            else
              {| Name := name; Status := checkOK;
                 Message := "Readable (" +:+ itoa (Size info) +:+ " bytes): " +:+ path |}
        end
    end.

Definition checkTLSFiles (w : World) : list checkResult :=
  if negb (IsSet w "tls") then [] (* ACME mode, no files to check *)
  else
    let certPath := GetString w "tls.cert" in
    let keyPath := GetString w "tls.key" in
    let results : list checkResult := [] in
    (* Check cert file *)
    let results :=
      if String.eqb certPath "" then
        results ++ [{| Name := "TLS Cert"; Status := checkFail;
                       Message := "tls.cert path is empty." |}]
      else
        let r := checkFileReadable w "TLS Cert" certPath in
        if negb (String.eqb (Status r) checkOK)
        then results ++ [r]
        else results ++ [r] in
    (* Check key file *)
    let results :=
      if String.eqb keyPath "" then
        results ++ [{| Name := "TLS Key"; Status := checkFail;
                       Message := "tls.key path is empty." |}]
      else
        let r := checkFileReadable w "TLS Key" keyPath in
        if negb (String.eqb (Status r) checkOK)
        then results ++ [r]
        else results ++ [r] in
    (* If both are readable, try to parse the pair *)
    if negb (String.eqb certPath "") && negb (String.eqb keyPath "") then
      match LoadX509KeyPair w certPath keyPath with
      | Some err =>
          results ++ [{| Name := "TLS Pair"; Status := checkFail;
                         Message := "Certificate/Key pair is invalid: " +:+ errText err |}]
      | None =>
          results ++ [{| Name := "TLS Pair"; Status := checkOK;
                         Message := "Certificate and key pair loaded successfully." |}]
      end
    else results.

Definition checkPortAvailability (w : World) (socks : gset UDPAddr)
  : list checkResult * gset UDPAddr :=
  let listenAddr := GetString w "listen" in
  let listenAddr :=
    if String.eqb listenAddr "" then defaultListenAddr else listenAddr in
  let results : list checkResult := [] in
  (* Check UDP port (primary for QUIC) *)
  match ResolveUDPAddr w listenAddr with
  | inl err =>
      (results ++ [{| Name := "UDP Port"; Status := checkFail;
                      Message := "Invalid listen address '" +:+ listenAddr
                                 +:+ "': " +:+ errText err |}], socks)
  | inr udpAddr =>
      match ListenUDP w socks udpAddr with
      | inl err =>
          let errStr := errText err in
          if Contains errStr "address already in use" ||
             Contains errStr "Only one usage of each socket address" then
            (results ++ [{| Name := "UDP Port"; Status := checkFail;
                            Message := "Port " +:+ listenAddr +:+ " is already in use! Another process (Apache/Nginx/Hysteria?) is binding it." |}],
             socks)
          else if Contains errStr "permission denied" ||
                  Contains errStr "bind: permission denied" then
            (results ++ [{| Name := "UDP Port"; Status := checkFail;
                            Message := "Permission denied binding to " +:+ listenAddr +:+ ". Use a port > 1024 or run with elevated privileges." |}],
             socks)
          else
            (results ++ [{| Name := "UDP Port"; Status := checkFail;
                            Message := "Cannot bind UDP " +:+ listenAddr
                                       +:+ ": " +:+ errText err |}],
             socks)
      | inr (conn, socks) =>
          let socks := Close conn socks in
          (results ++ [{| Name := "UDP Port"; Status := checkOK;
                          Message := "UDP " +:+ listenAddr +:+ " is available." |}],
           socks)
      end
  end.

Definition checkBufferValue (w : World) (name valStr : string) (recommended : Z)
  : checkResult :=
  let val := SscanInt w valStr in
  if (val >=? recommended)%Z then
    {| Name := name; Status := checkOK;
       Message := itoa val +:+ " bytes (>= " +:+ itoa recommended
                  +:+ " recommended). Good!" |}
  else
    {| Name := name; Status := checkWarn;
       Message := itoa val +:+ " bytes (< " +:+ itoa recommended
                  +:+ " recommended). Run the tuning script for full speed. See docs/libya_tuning.md" |}.

Definition checkUDPBuffers (w : World) : list checkResult :=
  if negb (String.eqb (GOOS w) "linux") then
    [{| Name := "UDP Buffers"; Status := checkWarn;
        Message := "Buffer check only runs on Linux (current OS: " +:+ GOOS w
                   +:+ "). See docs/libya_tuning.md" |}]
  else
    let results : list checkResult := [] in
    (* Check rmem_max *)
    let results :=
      match ReadFile w "/proc/sys/net/core/rmem_max" with
      | inr rmem =>
          let val := TrimSpace w rmem in
          results ++ [checkBufferValue w "UDP rmem_max" val 8388608]
      | inl _ => results
      end in
    (* Check wmem_max *)
    let results :=
      match ReadFile w "/proc/sys/net/core/wmem_max" with
      | inr wmem =>
          let val := TrimSpace w wmem in
          results ++ [checkBufferValue w "UDP wmem_max" val 8388608]
      | inl _ => results
      end in
    if (length results =? 0)%nat then
      results ++ [{| Name := "UDP Buffers"; Status := checkWarn;
                     Message := "Could not read sysctl buffer values. Run 'sysctl net.core.rmem_max' manually." |}]
    else results.

Definition checkAuthConfig (w : World) : list checkResult :=
  let authType := GetString w "auth.type" in
  if String.eqb authType "" then
    [{| Name := "Auth"; Status := checkFail;
        Message := "No auth.type configured. Server requires authentication." |}]
  else
    let t := ToLower (mapToLower w) authType in
    if String.eqb t "password" then
      let pw := GetString w "auth.password" in
      if String.eqb pw "" then
        [{| Name := "Auth"; Status := checkFail;
            Message := "auth.type is 'password' but auth.password is empty." |}]
      else if (String.length pw <? 8)%nat then
        [{| Name := "Auth"; Status := checkWarn;
            Message := "auth.password is very short (< 8 chars). Consider using a stronger password." |}]
      else
        [{| Name := "Auth"; Status := checkOK;
            Message := "Password authentication configured." |}]
    else if String.eqb t "userpass" then
      let up := GetStringMapString w "auth.userpass" in
      if (size up =? 0)%nat then
        [{| Name := "Auth"; Status := checkFail;
            Message := "auth.type is 'userpass' but no user:password entries found." |}]
      else
        [{| Name := "Auth"; Status := checkOK;
            Message := "User/pass authentication configured ("
                       +:+ itoa (Z.of_nat (size up)) +:+ " users)." |}]
    else if String.eqb t "http" || String.eqb t "https" then
      let url := GetString w "auth.http.url" in
      if String.eqb url "" then
        [{| Name := "Auth"; Status := checkFail;
            Message := "auth.type is 'http' but auth.http.url is empty." |}]
      else
        [{| Name := "Auth"; Status := checkOK;
            Message := "HTTP authentication configured: " +:+ url |}]
    else
      [{| Name := "Auth"; Status := checkOK;
          Message := "Authentication type: " +:+ authType |}].

(** The six checks of [runDoctor], appended in order to [results]. *)
Definition runChecks (w : World) (socks : gset UDPAddr)
  : list checkResult * gset UDPAddr :=
  let results : list checkResult := [] in
  (* 1. Check config file readability *)
  let results := results ++ checkConfigReadable w in
  (* 2. Check TLS / ACME conflict *)
  let results := results ++ checkTLSACMEConflict w in
  (* 3. Check TLS cert/key file permissions *)
  let results := results ++ checkTLSFiles w in
  (* 4. Check listen port availability *)
  let '(port, socks) := checkPortAvailability w socks in
  let results := results ++ port in
  (* 5. Check UDP buffer sizes (Linux) *)
  let results := results ++ checkUDPBuffers w in
  (* 6. Check auth configuration *)
  let results := results ++ checkAuthConfig w in
  (results, socks).

(** The state of the loop over [results]: what has been printed so far and
    the two counters. *)
Record tally := { printed : list effect; failCount : Z; warnCount : Z }.

Definition reportResult (t : tally) (r : checkResult) : tally :=
  let line := Write ("  " +:+ Status r +:+ "  [" +:+ Name r +:+ "] "
                     +:+ Message r +:+ nl) in
  let failCount :=
    if String.eqb (Status r) checkFail
    then wrapInt (failCount t + 1) else failCount t in
  let warnCount :=
    if String.eqb (Status r) checkWarn
    then wrapInt (warnCount t + 1) else warnCount t in
  {| printed := printed t ++ [line];
     failCount := failCount;
     warnCount := warnCount |}.

Definition reportLoop (results : list checkResult) : tally :=
  fold_left reportResult results
    {| printed := []; failCount := 0; warnCount := 0 |}.

(** The verdict line chosen from the two counters. *)
Definition verdict (failCount warnCount : Z) : effect :=
  if (failCount =? 0)%Z && (warnCount =? 0)%Z then
    Println "  ✅ System Healthy — All checks passed!"
  else if (failCount =? 0)%Z then
    Write ("  " +:+ checkWarn +:+ " System OK with " +:+ itoa warnCount
           +:+ " warning(s)" +:+ nl)
  else
    Write ("  " +:+ checkFail +:+ " " +:+ itoa failCount +:+ " error(s), "
           +:+ itoa warnCount +:+ " warning(s) found. Fix the issues above."
           +:+ nl).

(** Printing and aggregation: the second half of [runDoctor]. *)
Definition report (results : list checkResult) : list effect :=
  let t := reportLoop results in
  [Println "─── Diagnostic Results ───"; Println ""]
  ++ printed t
  ++ [Println ""; Println "──────────────────────────"]
  ++ [verdict (failCount t) (warnCount t)]
  ++ [Println ""].

Definition banner : list effect :=
  [Println "";
   Println "╔══════════════════════════════════════════════════════╗";
   Println "║          LibyaLink Doctor — System Diagnostic       ║";
   Println "║          Powered by Hysteria 2                      ║";
   Println "╚══════════════════════════════════════════════════════╝";
   Println ""].

(** [runDoctor]: everything the command does, as the trace of its effects
    together with the socket table it leaves behind. *)
Definition runDoctor (w : World) (socks : gset UDPAddr)
  : list effect * gset UDPAddr :=
  let '(results, socks) := runChecks w socks in
  (banner ++ report results, socks).

End Checks.

End Doctor.

(** ** The buffer tuner and the platform socket option accessors *)

Module Buffers.
Import Go.

(** [libyalinkDesiredReadBuffer] is the desired read buffer size (8 MB). *)
Definition libyalinkDesiredReadBuffer : Z := 8 * 1024 * 1024.

(** [libyalinkDesiredWriteBuffer] is the desired write buffer size (8 MB). *)
Definition libyalinkDesiredWriteBuffer : Z := 8 * 1024 * 1024.

(** A zap log entry: level, message, structured fields. *)
Inductive level := InfoLevel | WarnLevel.

Inductive field :=
  | zapInt (key : string) (val : Z)
  | zapError (err : error).

Record entry := { lvl : level; msg : string; fields : list field }.

Inductive sockopt := SO_RCVBUF | SO_SNDBUF.

(** A live [*net.UDPConn], given by what each call on it answers. *)
Record UDPConn := {
  SetReadBuffer : Z -> option error;
  SetWriteBuffer : Z -> option error;
  SyscallConn : option error;
  Control : option error;
  Getsockopt : sockopt -> error + Z
}.

(** A [*zap.Logger] that is not nil. *)
Inductive Logger := zapLogger.

(** The calls made on the connection and on the logger, in order. *)
Inductive event :=
  | CallSetReadBuffer (bytes : Z)
  | CallSetWriteBuffer (bytes : Z)
  | CallSyscallConn
  | CallControl
  | CallGetsockopt (opt : sockopt)
  | Log (e : entry).

(** Code that makes such calls: the calls made, and the value returned. *)
Definition Traced (A : Type) : Type := list event * A.

Definition ret {A} (a : A) : Traced A := ([], a).

Definition bind {A B} (c : Traced A) (k : A -> Traced B) : Traced B :=
  let '(tr1, a) := c in
  let '(tr2, b) := k a in
  (tr1 ++ tr2, b).

Definition call {A} (e : event) (answer : A) : Traced A := ([e], answer).

Notation "'let*' x ':=' c 'in' k" := (bind c (fun x => k))
  (at level 10, x name, c at level 100, k at level 200).

Definition logInfo (m : string) (fs : list field) : Traced unit :=
  call (Log {| lvl := InfoLevel; msg := m; fields := fs |}) tt.

Definition logWarn (m : string) (fs : list field) : Traced unit :=
  call (Log {| lvl := WarnLevel; msg := m; fields := fs |}) tt.

(** [getSockOptRcvBuf] and [getSockOptSndBuf] (buffers_unix.go and its
    Windows counterpart): the option's value, or 0 when the call fails. *)
Definition getSockOptRcvBuf (conn : UDPConn) : Traced Z :=
  let* r := call (CallGetsockopt SO_RCVBUF) (Getsockopt conn SO_RCVBUF) in
  match r with
  | inl _ => ret 0%Z
  | inr val => ret val
  end.

Definition getSockOptSndBuf (conn : UDPConn) : Traced Z :=
  let* r := call (CallGetsockopt SO_SNDBUF) (Getsockopt conn SO_SNDBUF) in
  match r with
  | inl _ => ret 0%Z
  | inr val => ret val
  end.

(** [raw.Control(f)]: [f] runs on the descriptor unless the connection is
    already closed; its error is not looked at, and [size] stays 0 when [f]
    did not run. *)
Definition getUDPReadBufferSize (conn : UDPConn) : Traced Z :=
  let* err := call CallSyscallConn (SyscallConn conn) in
  match err with
  | Some _ => ret 0%Z
  | None =>
      let* cerr := call CallControl (Control conn) in
      match cerr with
      | Some _ => ret 0%Z
      | None => getSockOptRcvBuf conn
      end
  end.

Definition getUDPWriteBufferSize (conn : UDPConn) : Traced Z :=
  let* err := call CallSyscallConn (SyscallConn conn) in
  match err with
  | Some _ => ret 0%Z
  | None =>
      let* cerr := call CallControl (Control conn) in
      match cerr with
      | Some _ => ret 0%Z
      | None => getSockOptSndBuf conn
      end
  end.

Definition formatBytes (b : Z) : string :=
  let kb := 1024%Z in
  let mb := (1024 * kb)%Z in
  if (b >=? mb)%Z then itoa (b ÷ mb) +:+ "MB"
  else if (b >=? kb)%Z then itoa (b ÷ kb) +:+ "KB"
  else itoa b +:+ "B".

(** The block of [tuneUDPBuffer] under [--- Read Buffer ---]. *)
Definition tuneReadBuffer (conn : UDPConn) : Traced unit :=
  let* err := call (CallSetReadBuffer libyalinkDesiredReadBuffer)
                   (SetReadBuffer conn libyalinkDesiredReadBuffer) in
  match err with
  | Some err =>
      logWarn "[LibyaLink] Failed to set UDP read buffer"
        [zapInt "requested_bytes" libyalinkDesiredReadBuffer; zapError err]
  | None =>
      (* Retrieve actual granted size *)
      let* granted := getUDPReadBufferSize conn in
      if (granted <? libyalinkDesiredReadBuffer)%Z then
        logWarn ("[LibyaLink] Requested " +:+ formatBytes libyalinkDesiredReadBuffer
                 +:+ " read buffer -> OS granted " +:+ formatBytes granted
                 +:+ ". Warning: Run the tuning script to unlock full speed. See docs/libya_tuning.md")
          [zapInt "requested_bytes" libyalinkDesiredReadBuffer;
           zapInt "granted_bytes" granted]
      else
        logInfo ("[LibyaLink] UDP read buffer: requested "
                 +:+ formatBytes libyalinkDesiredReadBuffer
                 +:+ " -> granted " +:+ formatBytes granted +:+ ". Optimal!")
          [zapInt "granted_bytes" granted]
  end.

(** The block of [tuneUDPBuffer] under [--- Write Buffer ---]. *)
Definition tuneWriteBuffer (conn : UDPConn) : Traced unit :=
  let* err := call (CallSetWriteBuffer libyalinkDesiredWriteBuffer)
                   (SetWriteBuffer conn libyalinkDesiredWriteBuffer) in
  match err with
  | Some err =>
      logWarn "[LibyaLink] Failed to set UDP write buffer"
        [zapInt "requested_bytes" libyalinkDesiredWriteBuffer; zapError err]
  | None =>
      let* granted := getUDPWriteBufferSize conn in
      if (granted <? libyalinkDesiredWriteBuffer)%Z then
        logWarn ("[LibyaLink] Requested " +:+ formatBytes libyalinkDesiredWriteBuffer
                 +:+ " write buffer -> OS granted " +:+ formatBytes granted
                 +:+ ". Warning: Run the tuning script to unlock full speed. See docs/libya_tuning.md")
          [zapInt "requested_bytes" libyalinkDesiredWriteBuffer;
           zapInt "granted_bytes" granted]
      else
        logInfo ("[LibyaLink] UDP write buffer: requested "
                 +:+ formatBytes libyalinkDesiredWriteBuffer
                 +:+ " -> granted " +:+ formatBytes granted +:+ ". Optimal!")
          [zapInt "granted_bytes" granted]
  end.

(** [tuneUDPBuffer]; a nil pointer is [None]. *)
Definition tuneUDPBuffer (conn : option UDPConn) (log : option Logger)
  : Traced unit :=
  match conn, log with
  | Some conn, Some _ =>
      let* _ := logInfo "[LibyaLink] Tuning UDP socket buffers for Libyan network conditions..." [] in
      let* _ := tuneReadBuffer conn in
      tuneWriteBuffer conn
  | _, _ => ret tt
  end.

(** The log entries of a trace. *)
Definition logged (tr : list event) : list entry :=
  omap (fun e => match e with Log l => Some l | _ => None end) tr.

End Buffers.

(** ** Sample surroundings *)

Module Samples.
Import Go Doctor.

Definition lookupString (kvs : list (string * string)) (key : string) : string :=
  match List.find (fun kv => String.eqb kv.1 key) kvs with
  | Some kv => kv.2
  | None => ""
  end.

Definition noSuchFile (path : string) : error :=
  {| kind := ErrNotExist;
     errText := "stat " +:+ path +:+ ": no such file or directory" |}.

(** The wildcard address on port 443. *)
Definition wildcard443 : UDPAddr := {| IP := ""; Port := 443; Zone := "" |}.

(** A Linux host with one readable key file, no certificate file, the kernel
    buffer ceilings at their stock 212992 bytes, and a resolver that knows
    the wildcard address on port 443.  The configuration is given by the
    load error, the path of the file in use, the keys present and the string
    values. *)
Definition host (readErr : option error) (cfgFile : string)
    (keys : list string) (strs : list (string * string))
    (users : gmap string string) : World :=
  {| ReadInConfig := readErr;
     ConfigFileUsed := cfgFile;
     IsSet := fun key => existsb (String.eqb key) keys;
     GetString := lookupString strs;
     GetStringMapString := fun key =>
       if String.eqb key "auth.userpass" then users else ∅;
     Stat := fun path =>
       if String.eqb path "/etc/libyalink/server.key"
       then inr {| Size := 1704 |} else inl (noSuchFile path);
     Open := fun path =>
       if String.eqb path "/etc/libyalink/server.key"
       then None else Some (noSuchFile path);
     ReadFile := fun path =>
       if String.eqb path "/proc/sys/net/core/rmem_max" ||
          String.eqb path "/proc/sys/net/core/wmem_max"
       then inr "212992" else inl (noSuchFile path);
     GOOS := "linux";
     LoadX509KeyPair := fun cert key =>
       Some {| kind := ErrNotExist;
               errText := "open " +:+ cert +:+ ": no such file or directory" |};
     ResolveUDPAddr := fun addr =>
       if String.eqb addr ":443" then inr wildcard443
       else inl {| kind := ErrOther; errText := "address " +:+ addr +:+ ": missing port in address" |};
     bindRefused := fun _ => None;
     mapToLower := fun s => s;
     TrimSpace := fun s => s;
     SscanInt := fun s => if String.eqb s "212992" then 212992%Z else 0%Z |}.

(** No configuration file was found: nothing is loaded, no key is set. *)
Definition noConfig : World :=
  host (Some {| kind := ErrOther;
                errText := "Config File Not Found in [/etc/libyalink]" |})
       "" [] [] ∅.

(** A loaded configuration in certificate mode whose certificate path names
    a file that does not exist, next to a readable key file. *)
Definition missingCert : World :=
  host None "/etc/libyalink/config.yaml" ["tls"; "auth"]
       [("tls.cert", "/etc/libyalink/missing.crt");
        ("tls.key", "/etc/libyalink/server.key");
        ("auth.type", "password");
        ("auth.password", "correct-horse-battery")] ∅.

(** A configuration file that was found but is not valid YAML: loading
    fails, viper still reports the path of the file, and no key is set. *)
Definition unparsableConfig : World :=
  host (Some {| kind := ErrOther;
                errText := "While parsing config: yaml: line 3: mapping values are not allowed in this context" |})
       "/etc/libyalink/config.yaml" [] [] ∅.

(** A loaded configuration with the given keys present and password
    authentication with the given secret. *)
Definition withPassword (keys : list string) (ty pw : string) : World :=
  host None "/etc/libyalink/config.yaml" keys
       [("auth.type", ty); ("auth.password", pw)] ∅.

(** A password of six Cyrillic letters, two bytes each in UTF-8. *)
Definition cyrillicPassword : string := "пароль".

(** A connection on a host with stock kernel ceilings: both requests are
    accepted and the kernel reports 212992 bytes for either buffer. *)
Definition stockConn : Buffers.UDPConn :=
  {| Buffers.SetReadBuffer := fun _ => None;
     Buffers.SetWriteBuffer := fun _ => None;
     Buffers.SyscallConn := None;
     Buffers.Control := None;
     Buffers.Getsockopt := fun _ => inr 212992%Z |}.

(** A connection on a tuned host: the kernel reports twice the request. *)
Definition tunedConn : Buffers.UDPConn :=
  {| Buffers.SetReadBuffer := fun _ => None;
     Buffers.SetWriteBuffer := fun _ => None;
     Buffers.SyscallConn := None;
     Buffers.Control := None;
     Buffers.Getsockopt := fun _ => inr 16777216%Z |}.

(** A connection that was closed before tuning: both requests fail. *)
Definition closedConn : Buffers.UDPConn :=
  let closed := {| kind := ErrOther;
                   errText := "use of closed network connection" |} in
  {| Buffers.SetReadBuffer := fun _ => Some closed;
     Buffers.SetWriteBuffer := fun _ => Some closed;
     Buffers.SyscallConn := Some closed;
     Buffers.Control := Some closed;
     Buffers.Getsockopt := fun _ => inl closed |}.

End Samples.

(** ** Notions the properties are stated with *)

Module Notions.
Import Go Doctor.

(** The number of results that carry a given status. *)
Definition countStatus (s : string) (results : list checkResult) : nat :=
  length (filter (fun r => Status r = s) results).

(** The line the loop prints for one result. *)
Definition resultLine (r : checkResult) : effect :=
  Write ("  " +:+ Status r +:+ "  [" +:+ Name r +:+ "] " +:+ Message r +:+ nl).

(** The address the port check resolves: the configured one, or the
    default when none is configured. *)
Definition listenAddrOf (defaultListenAddr : string) (w : World) : string :=
  if String.eqb (GetString w "listen") "" then defaultListenAddr
  else GetString w "listen".

(** The same surroundings with another value under one string key. *)
Definition setString (key val : string) (w : World) : World :=
  {| ReadInConfig := ReadInConfig w;
     ConfigFileUsed := ConfigFileUsed w;
     IsSet := IsSet w;
     GetString := fun k => if String.eqb k key then val else GetString w k;
     GetStringMapString := GetStringMapString w;
     Stat := Stat w;
     Open := Open w;
     ReadFile := ReadFile w;
     GOOS := GOOS w;
     LoadX509KeyPair := LoadX509KeyPair w;
     ResolveUDPAddr := ResolveUDPAddr w;
     bindRefused := bindRefused w;
     mapToLower := mapToLower w;
     TrimSpace := TrimSpace w;
     SscanInt := SscanInt w |}.

(** The auth types with rules of their own. *)
Definition knownAuthTypes : list string :=
  ["password"; "userpass"; "http"; "https"].

(** A trace without [os.Exit]. *)
Definition onlyWrites (tr : list effect) : Prop :=
  Forall (fun e => exists s, e = Write s) tr.

End Notions.

(** ** [app/cmd/gen_client.go] *)

Module GenClient.
Import Go.

(** The flags of the command, as cobra leaves them in the package
    variables. *)
Record Flags := {
  genClientServer : string;
  genClientPort : Z;
  genClientAuth : string;
  genClientInsecure : bool;
  genClientSNI : string;
  genClientObfs : string;
  genClientPreset : string;
  genClientOutput : string
}.

(** [bandwidthPreset] holds up/down bandwidth values. *)
Record bandwidthPreset := { Up : string; Down : string }.

Definition bandwidthPresets : gmap string bandwidthPreset :=
  <["4g" := {| Up := "1 mbps"; Down := "10 mbps" |}]>
    (<["fiber" := {| Up := "20 mbps"; Down := "100 mbps" |}]> ∅).

(** The sing-box structures.  A field that several Go structs share
    ([Type], [Tag], [Listen], [Password]) carries the struct in its name
    here; a nil pointer is [None]. *)
Record singBoxTLS := {
  Enabled : bool;
  Insecure : bool;
  ServerName : string
}.

Record singBoxObfs := { obfsType : string; obfsPassword : string }.

Record singBoxOutbound := {
  outboundType : string;
  outboundTag : string;
  Server : string;
  ServerPort : Z;
  Password : string;
  TLS : singBoxTLS;
  Obfs : option singBoxObfs;
  UpMbps : Z;
  DownMbps : Z
}.

Record singBoxLog := { Level : string }.

Record singBoxDNSServer := { dnsTag : string; Address : string }.

Record singBoxDNS := { Servers : list singBoxDNSServer }.

Record singBoxInbound := {
  inboundType : string;
  inboundTag : string;
  inboundListen : string;
  inboundPort : Z
}.

Record singBoxRouteRule := { Protocol : string; Outbound : string }.

Record singBoxRoute := {
  AutoDetectInterface : bool;
  FinalTag : string;
  Rules : list singBoxRouteRule
}.

(** An element of [Outbounds []interface{}]. *)
Inductive outbound :=
  | hysteria2Outbound (o : singBoxOutbound)
  | mapOutbound (m : gmap string string).

Record singBoxConfig := {
  Log : singBoxLog;
  DNS : singBoxDNS;
  Inbounds : list singBoxInbound;
  Outbounds : list outbound;
  Route : singBoxRoute
}.

(** The native Hysteria 2 client structures. *)
Record hysteria2ClientTLS := { SNI : string; clientInsecure : bool }.

Record hysteria2ClientBW := { bwUp : string; bwDown : string }.

Record hysteria2ClientObfs := {
  clientObfsType : string;
  SalamanderPassword : string
}.

Record hysteria2ClientSocks5 := { socks5Listen : string }.

Record hysteria2ClientHTTP := { httpListen : string }.

Record hysteria2ClientConfig := {
  clientServer : string;
  Auth : string;
  clientTLS : hysteria2ClientTLS;
  Bandwidth : option hysteria2ClientBW;
  clientObfs : option hysteria2ClientObfs;
  Socks5 : option hysteria2ClientSocks5;
  HTTP : option hysteria2ClientHTTP
}.

(** What the command asks of its surroundings: [json.MarshalIndent] at the
    two types it is used at, [os.WriteFile], and the value
    [fmt.Sscanf(s, "%d", &n)] leaves in a zero-initialised [n]. *)
Record Env := {
  MarshalIndentSingBox : singBoxConfig -> error + string;
  MarshalIndentNative : hysteria2ClientConfig -> error + string;
  WriteFile : string -> string -> Z -> option error;
  SscanInt : string -> Z
}.

(** What the command does: it writes to standard error and to standard
    output, writes a file, and may end the process. *)
Inductive action :=
  | Stderr (s : string)
  | Stdout (s : string)
  | FileWrite (path data : string) (perm : Z)
  | Exit (code : Z).

Definition Errln (s : string) : action := Stderr (s +:+ nl).

(** The verb [%v] applied to a [bool]. *)
Definition fmtBool (b : bool) : string := if b then "true" else "false".

Definition parseBandwidthToMbps (env : Env) (preset : bandwidthPreset) : Z * Z :=
  (SscanInt env (Up preset), SscanInt env (Down preset)).

(** [sni], lines 184 to 187. *)
Definition sniOf (f : Flags) : string :=
  if String.eqb (genClientSNI f) "" && genClientInsecure f
  then genClientServer f else genClientSNI f.

(** [serverAddr], line 182. *)
Definition serverAddrOf (f : Flags) : string :=
  genClientServer f +:+ ":" +:+ itoa (genClientPort f).

(** [singBoxCfg], lines 207 to 266. *)
Definition singBoxCfgOf (env : Env) (f : Flags) (preset : bandwidthPreset)
  : singBoxConfig :=
  let '(upMbps, downMbps) := parseBandwidthToMbps env preset in
  let obfs :=
    if negb (String.eqb (genClientObfs f) "")
    then Some {| obfsType := "salamander"; obfsPassword := genClientObfs f |}
    else None in
  let hy2Outbound :=
    {| outboundType := "hysteria2";
       outboundTag := "libyalink-proxy";
       Server := genClientServer f;
       ServerPort := genClientPort f;
       Password := genClientAuth f;
       TLS := {| Enabled := true;
                 Insecure := genClientInsecure f;
                 ServerName := sniOf f |};
       Obfs := obfs;
       UpMbps := upMbps;
       DownMbps := downMbps |} in
  {| Log := {| Level := "info" |};
     DNS := {| Servers := [{| dnsTag := "google"; Address := "tls://8.8.8.8" |}] |};
     Inbounds :=
       [{| inboundType := "tun"; inboundTag := "tun-in";
           inboundListen := "0.0.0.0"; inboundPort := 0 |};
        {| inboundType := "socks"; inboundTag := "socks-in";
           inboundListen := "127.0.0.1"; inboundPort := 2080 |};
        {| inboundType := "http"; inboundTag := "http-in";
           inboundListen := "127.0.0.1"; inboundPort := 2081 |}];
     Outbounds :=
       [hysteria2Outbound hy2Outbound;
        mapOutbound (<["type" := "direct"]> (<["tag" := "direct"]> ∅))];
     Route := {| AutoDetectInterface := true;
                 FinalTag := "libyalink-proxy";
                 Rules := [] |} |}.

(** [nativeConfig], lines 278 to 298. *)
Definition nativeConfigOf (f : Flags) (preset : bandwidthPreset)
  : hysteria2ClientConfig :=
  {| clientServer := serverAddrOf f;
     Auth := genClientAuth f;
     clientTLS := {| SNI := sniOf f; clientInsecure := genClientInsecure f |};
     Bandwidth := Some {| bwUp := Up preset; bwDown := Down preset |};
     clientObfs :=
       if negb (String.eqb (genClientObfs f) "")
       then Some {| clientObfsType := "salamander";
                    SalamanderPassword := genClientObfs f |}
       else None;
     Socks5 := Some {| socks5Listen := "127.0.0.1:1080" |};
     HTTP := Some {| httpListen := "127.0.0.1:8080" |} |}.

(** [output], lines 307 to 322. *)
Definition outputOf (presetName : string) (preset : bandwidthPreset)
    (singBoxJSON nativeJSON : string) : string :=
  "// ============================================================"
  +:+ nl
  +:+ "// LibyaLink Client Configuration â€” Generated Automatically"
  +:+ nl
  +:+ "// Powered by Hysteria 2"
  +:+ nl
  +:+ "// Preset: "
  +:+ presetName
  +:+ " ("
  +:+ Up preset
  +:+ " up / "
  +:+ Down preset
  +:+ " down)"
  +:+ nl
  +:+ "// ============================================================"
  +:+ nl
  +:+ nl
  +:+ "// â”€â”€â”€ For NekoBox / sing-box â”€â”€â”€â”€â”€â”€â”€â”€â”€â”€â”€â”€â”€â”€â”€â”€â”€â”€â”€â”€â”€â”€â”€â”€â”€â”€â”€â”€â”€â”€â”€â”€â”€"
  +:+ nl
  +:+ "// Import this JSON in NekoBox > Manual Configuration > sing-box"
  +:+ nl
  +:+ nl
  +:+ singBoxJSON
  +:+ nl
  +:+ nl
  +:+ "// â”€â”€â”€ For Native Hysteria 2 Client â”€â”€â”€â”€â”€â”€â”€â”€â”€â”€â”€â”€â”€â”€â”€â”€â”€â”€â”€â”€â”€â”€â”€â”€â”€â”€â”€"
  +:+ nl
  +:+ "// Save as config.yaml and run: libyalink client -c config.yaml"
  +:+ nl
  +:+ nl
  +:+ nativeJSON
  +:+ nl.

(** The closing lines, 336 to 339. *)
Definition closing : list action :=
  [Errln "";
   Errln "  ðŸ“‹ Copy the sing-box JSON block into NekoBox's manual config.";
   Errln "  ðŸ“‹ Or save the Hysteria 2 block as config.yaml for the native client.";
   Errln ""].

(** [runGenClient]: the actions of the command in order; nothing follows an
    [Exit]. *)
Definition runGenClient (env : Env) (f : Flags) : list action :=
  (* Validate preset *)
  match bandwidthPresets !! genClientPreset f with
  | None =>
      [Stderr ("Error: unknown preset '" +:+ genClientPreset f
               +:+ "'. Use '4g' or 'fiber'." +:+ nl);
       Exit 1]
  | Some preset =>
      [Errln "";
       Errln "â•”â•â•â•â•â•â•â•â•â•â•â•â•â•â•â•â•â•â•â•â•â•â•â•â•â•â•â•â•â•â•â•â•â•â•â•â•â•â•â•â•â•â•â•â•â•â•â•â•â•â•â•â•â•â•â•â•â•â•â•—";
       Errln "â•‘  LibyaLink Client Config Generator                      â•‘";
       Errln "â•‘  Powered by Hysteria 2                                  â•‘";
       Errln "â•šâ•â•â•â•â•â•â•â•â•â•â•â•â•â•â•â•â•â•â•â•â•â•â•â•â•â•â•â•â•â•â•â•â•â•â•â•â•â•â•â•â•â•â•â•â•â•â•â•â•â•â•â•â•â•â•â•â•â•â•";
       Errln "";
       Stderr ("  Server:   " +:+ serverAddrOf f +:+ nl);
       Stderr ("  Preset:   " +:+ genClientPreset f +:+ " (" +:+ Up preset
               +:+ " up / " +:+ Down preset +:+ " down)" +:+ nl);
       Stderr ("  Insecure: " +:+ fmtBool (genClientInsecure f) +:+ nl);
       Errln "";
       (* --- Generate sing-box / NekoBox format --- *)
       Errln "â”€â”€â”€ NekoBox / sing-box Configuration â”€â”€â”€";
       Errln ""]
      ++
      match MarshalIndentSingBox env (singBoxCfgOf env f preset) with
      | inl err =>
          [Stderr ("Error generating sing-box config: " +:+ errText err +:+ nl);
           Exit 1]
      | inr singBoxJSON =>
          (* --- Also generate native Hysteria 2 client format --- *)
          [Errln "â”€â”€â”€ Native Hysteria 2 Client Configuration â”€â”€â”€";
           Errln ""]
          ++
          match MarshalIndentNative env (nativeConfigOf f preset) with
          | inl err =>
              [Stderr ("Error generating native config: " +:+ errText err +:+ nl);
               Exit 1]
          | inr nativeJSON =>
              (* Build full output *)
              let output :=
                outputOf (genClientPreset f) preset singBoxJSON nativeJSON in
              (* Write to file or stdout *)
              if negb (String.eqb (genClientOutput f) "") then
                FileWrite (genClientOutput f) output 420
                :: match WriteFile env (genClientOutput f) output 420 with
                   | Some err =>
                       [Stderr ("Error writing to " +:+ genClientOutput f
                                +:+ ": " +:+ errText err +:+ nl);
                        Exit 1]
                   | None =>
                       Stderr ("  âœ… Configuration written to: " +:+ genClientOutput f +:+ nl)
                       :: closing
                   end
              else
                Stdout output :: closing
          end
      end
  end.

(** What reached standard output, the files written, and the status the
    process ends with (0 when the command returns). *)
Definition stdoutOf (tr : list action) : list string :=
  omap (fun a => match a with Stdout s => Some s | _ => None end) tr.

Definition filesOf (tr : list action) : list (string * string * Z) :=
  omap (fun a => match a with
                 | FileWrite path data perm => Some (path, data, perm)
                 | _ => None
                 end) tr.

Fixpoint exitCode (tr : list action) : Z :=
  match tr with
  | [] => 0
  | Exit code :: _ => code
  | _ :: rest => exitCode rest
  end.

(** Sample surroundings: a marshaller that answers with fixed texts and a
    file system that accepts every write, and the flags of the first
    example in the command's help, with a choice of preset and output. *)
Definition sampleEnv : Env :=
  {| MarshalIndentSingBox := fun _ => inr "{sing-box}";
     MarshalIndentNative := fun _ => inr "{native}";
     WriteFile := fun _ _ _ => None;
     SscanInt := fun s =>
       if String.eqb s "1 mbps" then 1%Z
       else if String.eqb s "10 mbps" then 10%Z
       else if String.eqb s "20 mbps" then 20%Z
       else if String.eqb s "100 mbps" then 100%Z
       else 0%Z |}.

Definition readOnlyEnv : Env :=
  {| MarshalIndentSingBox := fun _ => inr "{sing-box}";
     MarshalIndentNative := fun _ => inr "{native}";
     WriteFile := fun path _ _ =>
       Some {| kind := ErrPermission;
               errText := "open " +:+ path +:+ ": read-only file system" |};
     SscanInt := fun _ => 0%Z |}.

Definition sampleFlags (preset output : string) : Flags :=
  {| genClientServer := "1.2.3.4";
     genClientPort := 443;
     genClientAuth := "mypassword";
     genClientInsecure := true;
     genClientSNI := "";
     genClientObfs := "";
     genClientPreset := preset;
     genClientOutput := output |}.

End GenClient.

(** ** Further notions and sample surroundings *)

Module Shapes.
Import Go Doctor Buffers Samples Notions.

(** A result as the data model wants it: one of the three statuses, a name
    and a message. *)
Definition wellFormed (r : checkResult) : Prop :=
  (Status r = checkOK \/ Status r = checkWarn \/ Status r = checkFail) /\
  Name r <> "" /\ Message r <> "".

Definition allOK (results : list checkResult) : Prop :=
  Forall (fun r => Status r = checkOK) results.

(** The three verdict lines. *)
Definition allClearLine : effect :=
  Println "  ✅ System Healthy — All checks passed!".

Definition degradedLine (warns : nat) : effect :=
  Write ("  " +:+ checkWarn +:+ " System OK with " +:+ itoa (Z.of_nat warns)
         +:+ " warning(s)" +:+ nl).

Definition brokenLine (fails warns : nat) : effect :=
  Write ("  " +:+ checkFail +:+ " " +:+ itoa (Z.of_nat fails) +:+ " error(s), "
         +:+ itoa (Z.of_nat warns) +:+ " warning(s) found. Fix the issues above."
         +:+ nl).

(** The verdict line of a result sequence, from its exact counts. *)
Definition verdictOf (results : list checkResult) : effect :=
  verdict (Z.of_nat (countStatus checkFail results))
          (Z.of_nat (countStatus checkWarn results)).

(** The two kernel ceilings the buffer check reads. *)
Definition ceilingFiles : list string :=
  ["/proc/sys/net/core/rmem_max"; "/proc/sys/net/core/wmem_max"].

(** The calls that ask the kernel to resize a buffer. *)
Definition setCalls (tr : list event) : list event :=
  omap (fun e => match e with
                 | CallSetReadBuffer _ | CallSetWriteBuffer _ => Some e
                 | _ => None
                 end) tr.

(** The first entry the tuner logs. *)
Definition tuningStarted : entry :=
  {| lvl := InfoLevel;
     msg := "[LibyaLink] Tuning UDP socket buffers for Libyan network conditions...";
     fields := [] |}.

(** The same surroundings with other files and another pair loader: the
    listed paths exist with the listed sizes and can be opened. *)
Definition withFiles (files : list (string * Z)) (pairError : option error)
    (w : World) : World :=
  {| ReadInConfig := ReadInConfig w;
     ConfigFileUsed := ConfigFileUsed w;
     IsSet := IsSet w;
     GetString := GetString w;
     GetStringMapString := GetStringMapString w;
     Stat := fun path =>
       match List.find (fun f => String.eqb f.1 path) files with
       | Some f => inr {| Size := f.2 |}
       | None => inl (noSuchFile path)
       end;
     Open := fun path =>
       match List.find (fun f => String.eqb f.1 path) files with
       | Some _ => None
       | None => Some (noSuchFile path)
       end;
     ReadFile := ReadFile w;
     GOOS := GOOS w;
     LoadX509KeyPair := fun _ _ => pairError;
     ResolveUDPAddr := ResolveUDPAddr w;
     bindRefused := bindRefused w;
     mapToLower := mapToLower w;
     TrimSpace := TrimSpace w;
     SscanInt := SscanInt w |}.

(** The same surroundings on another operating system, where the kernel
    ceilings are not exposed as files. *)
Definition onOS (os : string) (w : World) : World :=
  {| ReadInConfig := ReadInConfig w;
     ConfigFileUsed := ConfigFileUsed w;
     IsSet := IsSet w;
     GetString := GetString w;
     GetStringMapString := GetStringMapString w;
     Stat := Stat w;
     Open := Open w;
     ReadFile := fun path => inl (noSuchFile path);
     GOOS := os;
     LoadX509KeyPair := LoadX509KeyPair w;
     ResolveUDPAddr := ResolveUDPAddr w;
     bindRefused := bindRefused w;
     mapToLower := mapToLower w;
     TrimSpace := TrimSpace w;
     SscanInt := SscanInt w |}.

(** A host in certificate mode where both files are in place and match. *)
Definition goodTLS : World :=
  withFiles [("/etc/libyalink/server.crt", 1220%Z);
             ("/etc/libyalink/server.key", 1704%Z)] None
    (host None "/etc/libyalink/config.yaml" ["tls"; "auth"]
       [("tls.cert", "/etc/libyalink/server.crt");
        ("tls.key", "/etc/libyalink/server.key");
        ("auth.type", "password");
        ("auth.password", "correct-horse-battery")] ∅).

(** A connection whose buffers can be set but not read back. *)
Definition opaqueConn : Buffers.UDPConn :=
  {| Buffers.SetReadBuffer := fun _ => None;
     Buffers.SetWriteBuffer := fun _ => None;
     Buffers.SyscallConn := None;
     Buffers.Control := None;
     Buffers.Getsockopt := fun _ =>
       inl {| kind := ErrOther; errText := "protocol not available" |} |}.

End Shapes.

(** ** Properties of the diagnostic command *)

Module DoctorSpec.
Import Go Doctor Samples Notions.

(** *** The three status glyphs are pairwise distinct *)

Lemma checkFail_neq_checkWarn : checkFail <> checkWarn.
Proof. discriminate. Qed.

Lemma checkFail_neq_checkOK : checkFail <> checkOK.
Proof. discriminate. Qed.

Lemma checkWarn_neq_checkOK : checkWarn <> checkOK.
Proof. discriminate. Qed.

(** *** Traces that only write *)

Lemma exitStatus_onlyWrites tr : onlyWrites tr -> exitStatus tr = 0%Z.
Proof.
  induction 1 as [|e tr [s ->] _ IH]; simpl; [reflexivity | exact IH].
Qed.

Lemma onlyWrites_app tr1 tr2 :
  onlyWrites tr1 -> onlyWrites tr2 -> onlyWrites (tr1 ++ tr2).
Proof. unfold onlyWrites. intros H1 H2. apply Forall_app. split; assumption. Qed.

Lemma onlyWrites_Println s : onlyWrites [Println s].
Proof. repeat constructor. eexists. reflexivity. Qed.

Lemma onlyWrites_banner : onlyWrites banner.
Proof. unfold banner. repeat constructor; eexists; reflexivity. Qed.

Lemma onlyWrites_verdict fc wc : onlyWrites [verdict fc wc].
Proof.
  unfold verdict. repeat constructor.
  destruct (_ && _); [| destruct (_ =? _)%Z]; eexists; reflexivity.
Qed.

(** *** The loop over the results *)

Lemma reportLoop_from_printed results t :
  printed (fold_left reportResult results t)
  = printed t ++ map resultLine results.
Proof.
  revert t. induction results as [|r results IH]; intros t; simpl.
  - symmetry. apply app_nil_r.
  - rewrite IH. simpl. rewrite <- app_assoc. reflexivity.
Qed.

Lemma reportLoop_printed results :
  printed (reportLoop results) = map resultLine results.
Proof. unfold reportLoop. rewrite reportLoop_from_printed. reflexivity. Qed.

Lemma onlyWrites_resultLines results : onlyWrites (map resultLine results).
Proof.
  induction results as [|r results IH]; simpl; constructor; auto.
  eexists. reflexivity.
Qed.

Lemma wrapInt_small z : (- 2 ^ 63 <= z <= maxInt)%Z -> wrapInt z = z.
Proof.
  unfold wrapInt, maxInt. intros H.
  rewrite Z.mod_small by lia. lia.
Qed.

Lemma countStatus_cons s r results :
  countStatus s (r :: results)
  = ((if String.eqb (Status r) s then 1 else 0) + countStatus s results)%nat.
Proof.
  unfold countStatus. rewrite filter_cons.
  destruct (String.eqb_spec (Status r) s) as [E|E].
  - rewrite decide_True by exact E. reflexivity.
  - rewrite decide_False by exact E. reflexivity.
Qed.

Lemma countStatus_le_length s results :
  (countStatus s results <= length results)%nat.
Proof. unfold countStatus. apply length_filter. Qed.

(** No result is counted under both statuses. *)
Lemma fail_warn_counts_disjoint results :
  (countStatus checkFail results + countStatus checkWarn results
   <= length results)%nat.
Proof.
  induction results as [|r results IH]; [reflexivity|].
  rewrite !countStatus_cons. simpl length.
  destruct (String.eqb_spec (Status r) checkFail) as [Ef|_];
    destruct (String.eqb_spec (Status r) checkWarn) as [Ew|_]; try lia.
  exfalso. apply checkFail_neq_checkWarn. congruence.
Qed.

(** The counters after the loop, started from any counters the remaining
    results cannot push past the largest [int]. *)
Lemma reportLoop_from_counts results t :
  (0 <= failCount t)%Z -> (0 <= warnCount t)%Z ->
  (failCount t + Z.of_nat (length results) <= maxInt)%Z ->
  (warnCount t + Z.of_nat (length results) <= maxInt)%Z ->
  failCount (fold_left reportResult results t)
    = (failCount t + Z.of_nat (countStatus checkFail results))%Z /\
  warnCount (fold_left reportResult results t)
    = (warnCount t + Z.of_nat (countStatus checkWarn results))%Z.
Proof.
  revert t. induction results as [|r results IH]; intros t Hf Hw Bf Bw.
  - unfold countStatus. simpl. split; lia.
  - simpl fold_left. rewrite !countStatus_cons.
    simpl length in Bf, Bw.
    assert (Hmax : (0 < maxInt)%Z) by (unfold maxInt; lia).
    destruct (IH (reportResult t r)) as [IHf IHw].
    + unfold reportResult; simpl. destruct (String.eqb _ checkFail);
        [rewrite wrapInt_small|]; unfold maxInt in *; lia.
    + unfold reportResult; simpl. destruct (String.eqb _ checkWarn);
        [rewrite wrapInt_small|]; unfold maxInt in *; lia.
    + unfold reportResult; simpl. destruct (String.eqb _ checkFail);
        [rewrite wrapInt_small|]; unfold maxInt in *; lia.
    + unfold reportResult; simpl. destruct (String.eqb _ checkWarn);
        [rewrite wrapInt_small|]; unfold maxInt in *; lia.
    + rewrite IHf, IHw. unfold reportResult; simpl.
      split.
      * destruct (String.eqb _ checkFail);
          [rewrite wrapInt_small|]; unfold maxInt in *; lia.
      * destruct (String.eqb _ checkWarn);
          [rewrite wrapInt_small|]; unfold maxInt in *; lia.
Qed.

Lemma reportLoop_counts results :
  (Z.of_nat (length results) <= maxInt)%Z ->
  failCount (reportLoop results) = Z.of_nat (countStatus checkFail results) /\
  warnCount (reportLoop results) = Z.of_nat (countStatus checkWarn results).
Proof.
  intros B. unfold reportLoop.
  destruct (reportLoop_from_counts results
              {| printed := []; failCount := 0; warnCount := 0 |})
    as [Hf Hw]; simpl; try lia.
  simpl in Hf, Hw. rewrite Hf, Hw. split; reflexivity.
Qed.

Lemma onlyWrites_report results : onlyWrites (report results).
Proof.
  unfold report. rewrite reportLoop_printed.
  repeat apply onlyWrites_app;
    try apply onlyWrites_resultLines; try apply onlyWrites_verdict;
    try apply onlyWrites_Println.
  - repeat constructor; eexists; reflexivity.
  - repeat constructor; eexists; reflexivity.
Qed.

(** C1, as the code has it: [runDoctor] only prints.  It reaches no
    [os.Exit] on any path, so in every surrounding and whatever the results
    are, FAIL or WARN, the process ends with status 0; the FAIL and WARN
    counts reach the operator through the printed verdict only. *)
Theorem runDoctor_exit_status_always_zero
    (defaultListenAddr : string) (w : World) (socks : gset UDPAddr) :
  onlyWrites (runDoctor defaultListenAddr w socks).1 /\
  exitStatus (runDoctor defaultListenAddr w socks).1 = 0%Z.
Proof.
  assert (H : onlyWrites (runDoctor defaultListenAddr w socks).1).
  { unfold runDoctor. destruct (runChecks _ _ _) as [results socks'].
    cbn [fst]. apply onlyWrites_app; [apply onlyWrites_banner|].
    apply onlyWrites_report. }
  split; [exact H | apply exitStatus_onlyWrites, H].
Qed.

(** C1 as stated fails: with no configuration to load the run produces FAIL
    results (the config check and the auth check), yet the exit status is
    not a failure status. *)
Lemma runDoctor_fail_without_failure_status :
  ~ (exitStatus (runDoctor ":443" noConfig ∅).1 <> 0%Z <->
     exists r, r ∈ (runChecks ":443" noConfig ∅).1 /\ Status r = checkFail).
Proof.
  intros [_ H]. apply H; [|reflexivity].
  exists {| Name := "Config File"; Status := checkFail;
            Message := "Cannot read config file: Config File Not Found in [/etc/libyalink]" |}.
  split; [|reflexivity].
  vm_compute. left.
Qed.

(** C2: for every sequence of results (a Go slice holds at most [maxInt]
    entries), the loop prints one line per result, its FAIL and WARN
    counters end at the exact number of results with status FAIL and WARN,
    no result being counted twice, and the verdict line printed after the loop is the all-clear line when
    both numbers are zero, the degraded line when there is no FAIL and at
    least one WARN, and the broken line when there is at least one FAIL. *)
Theorem report_counts_and_verdict (results : list checkResult) :
  (Z.of_nat (length results) <= maxInt)%Z ->
  let fails := countStatus checkFail results in
  let warns := countStatus checkWarn results in
  failCount (reportLoop results) = Z.of_nat fails /\
  warnCount (reportLoop results) = Z.of_nat warns /\
  (fails + warns <= length results)%nat /\
  report results
    = [Println "─── Diagnostic Results ───"; Println ""]
      ++ map resultLine results
      ++ [Println ""; Println "──────────────────────────";
          verdict (Z.of_nat fails) (Z.of_nat warns);
          Println ""] /\
  (fails = 0%nat -> warns = 0%nat ->
   verdict (Z.of_nat fails) (Z.of_nat warns)
   = Println "  ✅ System Healthy — All checks passed!") /\
  (fails = 0%nat -> (1 <= warns)%nat ->
   verdict (Z.of_nat fails) (Z.of_nat warns)
   = Write ("  " +:+ checkWarn +:+ " System OK with "
            +:+ itoa (Z.of_nat warns) +:+ " warning(s)" +:+ nl)) /\
  ((1 <= fails)%nat ->
   verdict (Z.of_nat fails) (Z.of_nat warns)
   = Write ("  " +:+ checkFail +:+ " " +:+ itoa (Z.of_nat fails)
            +:+ " error(s), " +:+ itoa (Z.of_nat warns)
            +:+ " warning(s) found. Fix the issues above." +:+ nl)).
Proof.
  intros B fails warns.
  destruct (reportLoop_counts results B) as [Hf Hw].
  fold fails in Hf. fold warns in Hw.
  split; [exact Hf|]. split; [exact Hw|].
  split; [apply fail_warn_counts_disjoint|]. split.
  - unfold report. rewrite reportLoop_printed, Hf, Hw. reflexivity.
  - unfold verdict. repeat split.
    + intros -> ->. reflexivity.
    + intros -> Hpos.
      replace (Z.of_nat 0 =? 0)%Z with true by reflexivity.
      destruct (Z.eqb_spec (Z.of_nat warns) 0) as [E|_]; [lia | reflexivity].
    + intros Hpos.
      destruct (Z.eqb_spec (Z.of_nat fails) 0) as [E|_]; [lia | reflexivity].
Qed.

Lemma report_counts_and_verdict_witness :
  failCount (reportLoop (runChecks ":443" noConfig ∅).1) = 2%Z /\
  warnCount (reportLoop (runChecks ":443" noConfig ∅).1) = 2%Z /\
  verdict 2 2
  = Write ("  ❌ 2 error(s), 2 warning(s) found. Fix the issues above." +:+ nl).
Proof.
  assert (B : (Z.of_nat (length (runChecks ":443" noConfig ∅).1) <= maxInt)%Z)
    by (vm_compute; discriminate).
  destruct (report_counts_and_verdict _ B)
    as (Hf & Hw & _ & _ & _ & _ & Hbroken).
  split; [exact Hf|]. split; [exact Hw|].
  apply Hbroken. vm_compute. apply le_S, le_n.
Defined.

(** The results of a run: nine at most, so the counters of a run never
    come near the largest [int]. *)
Lemma runChecks_length defaultListenAddr w socks :
  (length (runChecks defaultListenAddr w socks).1 <= 9)%nat.
Proof.
  unfold runChecks.
  destruct (checkPortAvailability defaultListenAddr w socks) as [port socks'] eqn:P.
  cbn [fst]. rewrite !length_app. cbn [length app].
  assert (length (checkConfigReadable w) <= 1)%nat
    by (unfold checkConfigReadable; destruct (ReadInConfig w); simpl; lia).
  assert (length (checkTLSACMEConflict w) <= 1)%nat
    by (unfold checkTLSACMEConflict;
        repeat (match goal with |- context [if ?b then _ else _] => destruct b end);
        simpl; lia).
  assert (length (checkTLSFiles w) <= 3)%nat
    by (unfold checkTLSFiles;
        repeat (match goal with
                | |- context [if ?b then _ else _] => destruct b
                | |- context [match ?x with Some _ => _ | None => _ end] => destruct x
                end);
        simpl; lia).
  assert (length port <= 1)%nat.
  { unfold checkPortAvailability in P.
    repeat (match type of P with
            | context [match ?x with inl _ => _ | inr _ => _ end] => destruct x
            | context [let '(_, _) := ?x in _] => destruct x
            | context [if ?b then _ else _] => destruct b
            end);
      inversion P; simpl; lia. }
  assert (length (checkUDPBuffers w) <= 2)%nat
    by (unfold checkUDPBuffers; destruct (negb _); [simpl; lia|];
        destruct (ReadFile w "/proc/sys/net/core/rmem_max"),
                 (ReadFile w "/proc/sys/net/core/wmem_max"); simpl; lia).
  assert (length (checkAuthConfig w) <= 1)%nat
    by (unfold checkAuthConfig;
        repeat (match goal with |- context [if ?b then _ else _] => destruct b end);
        simpl; lia).
  lia.
Qed.

(** So the bound on the length asked of a result sequence holds for the
    results of every run. *)
Lemma run_results_fit_int defaultListenAddr w socks :
  (Z.of_nat (length (runChecks defaultListenAddr w socks).1) <= maxInt)%Z.
Proof.
  pose proof (runChecks_length defaultListenAddr w socks) as H.
  unfold maxInt. lia.
Qed.

(** The mapping of the exclusivity check, by the path viper reports as the
    file in use.  With a path, the check returns exactly one result for each
    of the four combinations: FAIL when both [tls] and [acme] are present,
    FAIL when neither is, OK naming TLS mode when only [tls] is and OK
    naming ACME mode when only [acme] is; with no path it returns no
    result. *)
Theorem tls_acme_exclusivity_mapping (w : World) :
  (ConfigFileUsed w = "" -> checkTLSACMEConflict w = []) /\
  (ConfigFileUsed w <> "" ->
   (IsSet w "tls" = true -> IsSet w "acme" = true ->
    checkTLSACMEConflict w
    = [{| Name := "TLS/ACME"; Status := checkFail;
          Message := "Both 'tls' and 'acme' are set. You must use one or the other, not both." |}]) /\
   (IsSet w "tls" = false -> IsSet w "acme" = false ->
    checkTLSACMEConflict w
    = [{| Name := "TLS/ACME"; Status := checkFail;
          Message := "Neither 'tls' nor 'acme' is configured. One is required for the server to start." |}]) /\
   (IsSet w "tls" = true -> IsSet w "acme" = false ->
    checkTLSACMEConflict w
    = [{| Name := "TLS/ACME"; Status := checkOK;
          Message := "TLS mode: using local certificate files." |}]) /\
   (IsSet w "tls" = false -> IsSet w "acme" = true ->
    checkTLSACMEConflict w
    = [{| Name := "TLS/ACME"; Status := checkOK;
          Message := "ACME mode: using automatic certificate provisioning." |}])).
Proof.
  unfold checkTLSACMEConflict. split.
  - intros ->. reflexivity.
  - intros Hloaded.
    destruct (String.eqb_spec (ConfigFileUsed w) "") as [E|_]; [contradiction|].
    repeat split; intros -> ->; reflexivity.
Qed.

Lemma tls_acme_exclusivity_mapping_witness :
  checkTLSACMEConflict noConfig = [] /\
  map Status (checkTLSACMEConflict (withPassword ["tls"; "acme"] "password" "x"))
  = [checkFail] /\
  map Status (checkTLSACMEConflict (withPassword [] "password" "x"))
  = [checkFail] /\
  map Status (checkTLSACMEConflict (withPassword ["tls"] "password" "x"))
  = [checkOK] /\
  map Status (checkTLSACMEConflict (withPassword ["acme"] "password" "x"))
  = [checkOK].
Proof.
  split; [apply (proj1 (tls_acme_exclusivity_mapping noConfig)); reflexivity|].
  assert (L : forall keys,
             ConfigFileUsed (withPassword keys "password" "x") <> "")
    by (intros keys; discriminate).
  split.
  { destruct (proj2 (tls_acme_exclusivity_mapping _) (L ["tls"; "acme"]))
      as (H & _). rewrite H by reflexivity. reflexivity. }
  split.
  { destruct (proj2 (tls_acme_exclusivity_mapping _) (L []))
      as (_ & H & _). rewrite H by reflexivity. reflexivity. }
  split.
  { destruct (proj2 (tls_acme_exclusivity_mapping _) (L ["tls"]))
      as (_ & _ & H & _). rewrite H by reflexivity. reflexivity. }
  { destruct (proj2 (tls_acme_exclusivity_mapping _) (L ["acme"]))
      as (_ & _ & _ & H). rewrite H by reflexivity. reflexivity. }
Defined.

(** C4 with a configuration file that was found but could not be parsed:
    no configuration was loaded (the config check reports the load error),
    yet the exclusivity check does not skip.  Its guard looks at the path of
    the file, which viper keeps, and with no key set it returns the FAIL for
    neither [tls] nor [acme]. *)
Theorem tls_acme_check_runs_on_unparsable_config :
  ReadInConfig unparsableConfig <> None /\
  map Status (checkConfigReadable unparsableConfig) = [checkFail] /\
  ConfigFileUsed unparsableConfig = "/etc/libyalink/config.yaml" /\
  checkTLSACMEConflict unparsableConfig
  = [{| Name := "TLS/ACME"; Status := checkFail;
        Message := "Neither 'tls' nor 'acme' is configured. One is required for the server to start." |}].
Proof.
  split; [discriminate|]. split; [reflexivity|]. split; reflexivity.
Qed.

(** *** The authentication check *)

Lemma ToLower_empty f : ToLower f "" = "".
Proof. reflexivity. Qed.

Lemma ToLower_known_nonempty f ty :
  ToLower f ty ∈ knownAuthTypes -> ty <> "".
Proof.
  intros H ->. rewrite ToLower_empty in H. unfold knownAuthTypes in H.
  rewrite !elem_of_cons in H. rewrite elem_of_nil in H.
  destruct H as [H|[H|[H|[H|[]]]]]; discriminate H.
Qed.

(** The mapping of the auth check: it returns exactly one result.  A
    missing type gives FAIL.  With [t] the lower-cased type: [password] with
    an empty password gives FAIL, with a non-empty password of [len] under 8
    gives WARN and of [len] 8 or more gives OK, where [len] is the number of
    bytes of the string (the number of characters when the password is
    ASCII); [userpass] with an empty mapping gives FAIL; [http] or [https]
    with an empty URL gives FAIL; every other non-empty type gives OK. *)
Theorem auth_check_mapping (w : World) :
  let ty := GetString w "auth.type" in
  let t := ToLower (mapToLower w) ty in
  let pw := GetString w "auth.password" in
  let statuses := map Status (checkAuthConfig w) in
  (ty = "" -> statuses = [checkFail]) /\
  (t = "password" -> pw = "" -> statuses = [checkFail]) /\
  (t = "password" -> pw <> "" -> (String.length pw < 8)%nat ->
   statuses = [checkWarn]) /\
  (t = "password" -> (8 <= String.length pw)%nat -> statuses = [checkOK]) /\
  (t = "userpass" -> GetStringMapString w "auth.userpass" = ∅ ->
   statuses = [checkFail]) /\
  (t = "http" \/ t = "https" -> GetString w "auth.http.url" = "" ->
   statuses = [checkFail]) /\
  (ty <> "" -> t ∉ knownAuthTypes -> statuses = [checkOK]).
Proof.
  intros ty t pw statuses.
  assert (K : t ∈ knownAuthTypes -> String.eqb ty "" = false).
  { intros H. apply String.eqb_neq. exact (ToLower_known_nonempty _ _ H). }
  unfold knownAuthTypes in K. rewrite !elem_of_cons in K.
  subst statuses. unfold checkAuthConfig. cbv zeta. fold ty t pw.
  repeat split.
  - intros ->. reflexivity.
  - intros Ht Hpw. rewrite K by auto. rewrite Ht, Hpw. reflexivity.
  - intros Ht Hpw Hlen. rewrite K by auto. rewrite Ht.
    apply String.eqb_neq in Hpw. apply Nat.ltb_lt in Hlen.
    cbn [String.eqb Ascii.eqb Bool.eqb]. rewrite Hpw, Hlen. reflexivity.
  - intros Ht Hlen. rewrite K by auto. rewrite Ht.
    assert (Hpw : String.eqb pw "" = false)
      by (apply String.eqb_neq; intros E; rewrite E in Hlen; simpl in Hlen; lia).
    apply Nat.ltb_ge in Hlen.
    cbn [String.eqb Ascii.eqb Bool.eqb]. rewrite Hpw, Hlen. reflexivity.
  - intros Ht Hup. rewrite K by auto. rewrite Ht, Hup. reflexivity.
  - intros [Ht|Ht] Hurl; (rewrite K by auto); rewrite Ht, Hurl; reflexivity.
  - intros Hty Hunknown. unfold knownAuthTypes in Hunknown.
    rewrite !not_elem_of_cons in Hunknown.
    destruct Hunknown as (H1 & H2 & H3 & H4 & _).
    apply String.eqb_neq in Hty, H1, H2, H3, H4.
    rewrite Hty, H1, H2, H3, H4. reflexivity.
Qed.

Lemma auth_check_mapping_witness :
  map Status (checkAuthConfig noConfig) = [checkFail] /\
  map Status (checkAuthConfig (withPassword [] "password" "")) = [checkFail] /\
  map Status (checkAuthConfig (withPassword [] "password" "short1")) = [checkWarn] /\
  map Status (checkAuthConfig (withPassword [] "password" "longenough1")) = [checkOK] /\
  map Status (checkAuthConfig (withPassword [] "userpass" "")) = [checkFail] /\
  map Status (checkAuthConfig (withPassword [] "https" "")) = [checkFail] /\
  map Status (checkAuthConfig (withPassword [] "command" "")) = [checkOK].
Proof.
  split.
  { apply (proj1 (auth_check_mapping noConfig)). reflexivity. }
  split.
  { destruct (auth_check_mapping (withPassword [] "password" ""))
      as (_ & H & _). apply H; reflexivity. }
  split.
  { destruct (auth_check_mapping (withPassword [] "password" "short1"))
      as (_ & _ & H & _).
    apply H; [reflexivity | discriminate | vm_compute; lia]. }
  split.
  { destruct (auth_check_mapping (withPassword [] "password" "longenough1"))
      as (_ & _ & _ & H & _). apply H; [reflexivity | vm_compute; lia]. }
  split.
  { destruct (auth_check_mapping (withPassword [] "userpass" ""))
      as (_ & _ & _ & _ & H & _). apply H; reflexivity. }
  split.
  { destruct (auth_check_mapping (withPassword [] "https" ""))
      as (_ & _ & _ & _ & _ & H & _).
    apply H; [right; reflexivity | reflexivity]. }
  { destruct (auth_check_mapping (withPassword [] "command" ""))
      as (_ & _ & _ & _ & _ & _ & H).
    apply H; [discriminate|].
    unfold knownAuthTypes. rewrite !not_elem_of_cons.
    repeat split; try discriminate. apply not_elem_of_nil. }
Defined.

(** C5 on a password of characters that take more than one byte: the
    password below has six characters, fewer than 8, and is not empty, yet
    its twelve bytes pass the length test, which counts bytes where the
    warning it guards speaks of chars, and the result is OK, not WARN. *)
Lemma short_multibyte_password_not_warned :
  cyrillicPassword <> "" /\
  runeCount cyrillicPassword = 6%nat /\
  String.length cyrillicPassword = 12%nat /\
  map Status (checkAuthConfig (withPassword [] "password" cyrillicPassword))
  = [checkOK] /\
  ~ ((runeCount cyrillicPassword < 8)%nat ->
     map Status (checkAuthConfig (withPassword [] "password" cyrillicPassword))
     = [checkWarn]).
Proof.
  split; [discriminate|].
  split; [reflexivity|]. split; [reflexivity|]. split; [reflexivity|].
  intros H. assert (L : (runeCount cyrillicPassword < 8)%nat)
    by (vm_compute; lia).
  specialize (H L). discriminate H.
Qed.

(** *** The TLS file check *)

(** Whatever the two file-level checks found, two non-empty paths are
    always handed to the pair loader, and its outcome is the last result. *)
Lemma checkTLSFiles_pair_whenever_paths_set (w : World) :
  IsSet w "tls" = true ->
  GetString w "tls.cert" <> "" ->
  GetString w "tls.key" <> "" ->
  exists r, last (checkTLSFiles w) = Some r /\ Name r = "TLS Pair".
Proof.
  intros Htls Hcert Hkey. unfold checkTLSFiles. rewrite Htls. cbv zeta.
  apply String.eqb_neq in Hcert, Hkey. rewrite Hcert, Hkey.
  cbn [negb andb].
  destruct (LoadX509KeyPair w _ _); eexists; (split; [apply last_snoc | reflexivity]).
Qed.

(** C6 on a certificate path that names no file: the file-level check of the
    certificate fails, and the check still goes on to load the pair and
    reports a third, pair-level result. *)
Theorem tls_pair_reported_after_failed_file_check :
  Status (checkFileReadable missingCert "TLS Cert" "/etc/libyalink/missing.crt")
  = checkFail /\
  checkTLSFiles missingCert
  = [{| Name := "TLS Cert"; Status := checkFail;
        Message := "File not found: /etc/libyalink/missing.crt" |};
     {| Name := "TLS Key"; Status := checkOK;
        Message := "Readable (1704 bytes): /etc/libyalink/server.key" |};
     {| Name := "TLS Pair"; Status := checkFail;
        Message := "Certificate/Key pair is invalid: open /etc/libyalink/missing.crt: no such file or directory" |}].
Proof. split; reflexivity. Qed.

(** *** Checks without a configuration *)

(** C7 with no configuration file found: loading fails, the exclusivity
    check and the TLS file check return no result, and the auth check
    returns a FAIL of its own. *)
Theorem auth_check_fails_without_configuration :
  map Status (checkConfigReadable noConfig) = [checkFail] /\
  ConfigFileUsed noConfig = "" /\
  checkTLSACMEConflict noConfig = [] /\
  checkTLSFiles noConfig = [] /\
  checkAuthConfig noConfig
  = [{| Name := "Auth"; Status := checkFail;
        Message := "No auth.type configured. Server requires authentication." |}].
Proof. repeat split; reflexivity. Qed.

(** *** The port check *)

Lemma ListenUDP_success w socks a conn socks1 :
  ListenUDP w socks a = inr (conn, socks1) ->
  (a ∉ socks) /\ conn = {| LocalAddr := a |} /\ socks1 = {[a]} ∪ socks.
Proof.
  unfold ListenUDP. destruct (bindRefused w a); [discriminate|].
  destruct (decide (a ∈ socks)) as [Hin|Hout]; [discriminate|].
  intros H. inversion H. auto.
Qed.

Lemma Close_after_listen (a : UDPAddr) (socks : gset UDPAddr) :
  a ∉ socks -> Close {| LocalAddr := a |} ({[a]} ∪ socks) = socks.
Proof.
  intros Hfree. unfold Close. cbn [LocalAddr].
  apply set_eq. intros x.
  rewrite elem_of_difference, elem_of_union, elem_of_singleton.
  split.
  - intros [[Hx|Hx] Hne]; [contradiction | exact Hx].
  - intros Hx. split; [right; exact Hx | intros ->; contradiction].
Qed.

(** C8: whenever the listen address resolves and the bind succeeds, the
    check closes the socket before it returns: it reports the single OK
    result and leaves the table of bound sockets exactly as it found it.  So
    the address is not held, a second run of the check right after the first
    gives the same OK result, and the caller's own bind of the address
    succeeds. *)
Theorem port_check_releases_socket
    (defaultListenAddr : string) (w : World) (socks : gset UDPAddr)
    (a : UDPAddr) (conn : UDPConn) (socks1 : gset UDPAddr) :
  ResolveUDPAddr w (listenAddrOf defaultListenAddr w) = inr a ->
  ListenUDP w socks a = inr (conn, socks1) ->
  let ok := [{| Name := "UDP Port"; Status := checkOK;
                Message := "UDP " +:+ listenAddrOf defaultListenAddr w
                           +:+ " is available." |}] in
  a ∈ socks1 /\
  checkPortAvailability defaultListenAddr w socks = (ok, socks) /\
  (a ∉ (checkPortAvailability defaultListenAddr w socks).2) /\
  checkPortAvailability defaultListenAddr w
    (checkPortAvailability defaultListenAddr w socks).2 = (ok, socks) /\
  ListenUDP w (checkPortAvailability defaultListenAddr w socks).2 a
  = inr (conn, socks1).
Proof.
  intros Hres Hbind ok.
  destruct (ListenUDP_success _ _ _ _ _ Hbind) as (Hfree & -> & ->).
  assert (Hrun : checkPortAvailability defaultListenAddr w socks = (ok, socks)).
  { unfold checkPortAvailability. cbv zeta.
    fold (listenAddrOf defaultListenAddr w).
    rewrite Hres, Hbind, Close_after_listen by exact Hfree. reflexivity. }
  split; [set_solver|].
  rewrite Hrun. cbn [snd]. rewrite Hrun. auto.
Qed.

Lemma port_check_releases_socket_witness :
  checkPortAvailability ":443" missingCert ∅
  = ([{| Name := "UDP Port"; Status := checkOK;
         Message := "UDP :443 is available." |}], ∅) /\
  checkPortAvailability ":443" missingCert
    (checkPortAvailability ":443" missingCert ∅).2
  = ([{| Name := "UDP Port"; Status := checkOK;
         Message := "UDP :443 is available." |}], ∅).
Proof.
  assert (Hres : ResolveUDPAddr missingCert (listenAddrOf ":443" missingCert)
                 = inr wildcard443) by reflexivity.
  assert (Hbind : ListenUDP missingCert ∅ wildcard443
                  = inr ({| LocalAddr := wildcard443 |}, {[wildcard443]} ∪ ∅))
    by reflexivity.
  destruct (port_check_releases_socket ":443" missingCert ∅ wildcard443
              _ _ Hres Hbind)
    as (_ & H1 & _ & H2 & _).
  split; [exact H1 | exact H2].
Defined.

(** *** Letter case of the auth type *)

Lemma lowerByte_fold a b :
  isASCIIByte b = true -> lowerByte b = b ->
  Ascii.eqb (lowerByte a) (lowerByte b) = true ->
  isASCIIByte a = true /\ lowerByte a = b.
Proof.
  intros Hb Hlow Heq. apply Ascii.eqb_eq in Heq. rewrite Hlow in Heq.
  subst b. split; [|reflexivity]. clear Hlow.
  destruct a as [[] [] [] [] [] [] [] []]; vm_compute in Hb |- *;
    first [reflexivity | discriminate Hb].
Qed.

Lemma eqFoldASCII_lower (ty k : string) :
  isASCII k = true -> lowerASCII k = k -> eqFoldASCII ty k = true ->
  isASCII ty = true /\ lowerASCII ty = k.
Proof.
  revert k. induction ty as [|a ty IH]; intros [|b k] Hk Hlow Heq;
    simpl in Heq; try discriminate Heq.
  - split; reflexivity.
  - simpl in Hk, Hlow. apply andb_true_iff in Hk as [Hb Hk].
    apply andb_true_iff in Heq as [Hab Heq].
    injection Hlow as Hlb Hlk.
    destruct (lowerByte_fold a b Hb Hlb Hab) as [Ha Hla].
    destruct (IH k Hk Hlk Heq) as [Hty Hlty].
    simpl. rewrite Ha, Hty, Hla, Hlty. split; reflexivity.
Qed.

(** C9: an auth type that differs from [password], [userpass], [http] or
    [https] only in the capitalisation of its letters is checked by the
    rules of the lower-case form: in the same surroundings the check
    returns the very same result for both spellings. *)
Theorem auth_type_letter_case_invariant (w : World) (ty k : string) :
  k ∈ knownAuthTypes ->
  eqFoldASCII ty k = true ->
  checkAuthConfig (setString "auth.type" ty w)
  = checkAuthConfig (setString "auth.type" k w).
Proof.
  intros Hk Hfold.
  assert (Hlow : isASCII k = true /\ lowerASCII k = k /\ k <> "").
  { unfold knownAuthTypes in Hk. rewrite !elem_of_cons in Hk.
    rewrite elem_of_nil in Hk.
    destruct Hk as [->|[->|[->|[->|[]]]]]; repeat split; discriminate. }
  destruct Hlow as (Hascii & Hlower & Hne).
  destruct (eqFoldASCII_lower ty k Hascii Hlower Hfold) as [Hty Hlty].
  assert (Htyne : String.eqb ty "" = false).
  { apply String.eqb_neq. intros ->. simpl in Hlty. congruence. }
  apply String.eqb_neq in Hne.
  unfold checkAuthConfig. cbv zeta.
  cbn [GetString GetStringMapString mapToLower setString
       String.eqb Ascii.eqb Bool.eqb andb].
  rewrite Htyne, Hne. unfold ToLower. rewrite Hty, Hascii, Hlty, Hlower.
  unfold knownAuthTypes in Hk. rewrite !elem_of_cons in Hk.
  rewrite elem_of_nil in Hk.
  destruct Hk as [->|[->|[->|[->|[]]]]]; reflexivity.
Qed.

Lemma auth_type_letter_case_invariant_witness :
  checkAuthConfig (setString "auth.type" "PASSWORD" (withPassword [] "" "short1"))
  = [{| Name := "Auth"; Status := checkWarn;
        Message := "auth.password is very short (< 8 chars). Consider using a stronger password." |}].
Proof.
  rewrite (auth_type_letter_case_invariant _ "PASSWORD" "password").
  - reflexivity.
  - unfold knownAuthTypes. rewrite elem_of_cons. left. reflexivity.
  - reflexivity.
Defined.

End DoctorSpec.

(** ** Properties of the buffer tuner *)

Module BuffersSpec.
Import Go Buffers Samples.

Lemma desired_sizes :
  libyalinkDesiredReadBuffer = 8388608%Z /\
  libyalinkDesiredWriteBuffer = 8388608%Z.
Proof. split; reflexivity. Qed.

(** Reading back the granted size logs nothing. *)
Lemma getUDPReadBufferSize_silent conn :
  logged (getUDPReadBufferSize conn).1 = [].
Proof.
  unfold getUDPReadBufferSize, getSockOptRcvBuf.
  destruct (SyscallConn conn), (Control conn), (Getsockopt conn SO_RCVBUF);
    reflexivity.
Qed.

Lemma getUDPWriteBufferSize_silent conn :
  logged (getUDPWriteBufferSize conn).1 = [].
Proof.
  unfold getUDPWriteBufferSize, getSockOptSndBuf.
  destruct (SyscallConn conn), (Control conn), (Getsockopt conn SO_SNDBUF);
    reflexivity.
Qed.

Lemma logged_bind {A B} (c : Traced A) (k : A -> Traced B) :
  logged (bind c k).1 = logged c.1 ++ logged (k c.2).1.
Proof.
  unfold bind. destruct c as [tr1 a]. cbn [fst snd].
  destruct (k a) as [tr2 b]. cbn [fst]. unfold logged. apply omap_app.
Qed.

(** C3, as the code has it, for the read and for the write buffer alike
    (the request is the constant 8388608).  When the set call fails, the
    tuner makes no other call on the connection and logs one warning that
    carries the request and the error.  When it succeeds and the granted
    size is below the request, it logs one warning whose message gives both
    sizes as [formatBytes] prints them, in whole MB, KB or B, and whose
    fields [requested_bytes] and [granted_bytes] carry the two exact values.
    When the granted size is the request or more, it logs one informational
    entry ending in [Optimal!]. *)
Theorem tuner_classification (conn : UDPConn) :
  (forall err, SetReadBuffer conn 8388608 = Some err ->
     tuneReadBuffer conn
     = ([CallSetReadBuffer 8388608;
         Log {| lvl := WarnLevel;
                msg := "[LibyaLink] Failed to set UDP read buffer";
                fields := [zapInt "requested_bytes" 8388608; zapError err] |}],
        tt)) /\
  (SetReadBuffer conn 8388608 = None ->
   forall granted, (getUDPReadBufferSize conn).2 = granted ->
     ((granted < 8388608)%Z ->
      logged (tuneReadBuffer conn).1
      = [{| lvl := WarnLevel;
            msg := "[LibyaLink] Requested 8MB read buffer -> OS granted "
                   +:+ formatBytes granted
                   +:+ ". Warning: Run the tuning script to unlock full speed. See docs/libya_tuning.md";
            fields := [zapInt "requested_bytes" 8388608;
                       zapInt "granted_bytes" granted] |}]) /\
     ((8388608 <= granted)%Z ->
      logged (tuneReadBuffer conn).1
      = [{| lvl := InfoLevel;
            msg := "[LibyaLink] UDP read buffer: requested 8MB -> granted "
                   +:+ formatBytes granted +:+ ". Optimal!";
            fields := [zapInt "granted_bytes" granted] |}])) /\
  (forall err, SetWriteBuffer conn 8388608 = Some err ->
     tuneWriteBuffer conn
     = ([CallSetWriteBuffer 8388608;
         Log {| lvl := WarnLevel;
                msg := "[LibyaLink] Failed to set UDP write buffer";
                fields := [zapInt "requested_bytes" 8388608; zapError err] |}],
        tt)) /\
  (SetWriteBuffer conn 8388608 = None ->
   forall granted, (getUDPWriteBufferSize conn).2 = granted ->
     ((granted < 8388608)%Z ->
      logged (tuneWriteBuffer conn).1
      = [{| lvl := WarnLevel;
            msg := "[LibyaLink] Requested 8MB write buffer -> OS granted "
                   +:+ formatBytes granted
                   +:+ ". Warning: Run the tuning script to unlock full speed. See docs/libya_tuning.md";
            fields := [zapInt "requested_bytes" 8388608;
                       zapInt "granted_bytes" granted] |}]) /\
     ((8388608 <= granted)%Z ->
      logged (tuneWriteBuffer conn).1
      = [{| lvl := InfoLevel;
            msg := "[LibyaLink] UDP write buffer: requested 8MB -> granted "
                   +:+ formatBytes granted +:+ ". Optimal!";
            fields := [zapInt "granted_bytes" granted] |}])).
Proof.
  split; [|split; [|split]].
  - intros err H. unfold tuneReadBuffer, call, bind.
    change libyalinkDesiredReadBuffer with 8388608%Z. rewrite H. reflexivity.
  - intros H granted Hg. unfold tuneReadBuffer.
    change libyalinkDesiredReadBuffer with 8388608%Z.
    rewrite logged_bind. unfold call. cbn [fst snd]. rewrite H.
    cbn [fst snd].
    rewrite logged_bind, getUDPReadBufferSize_silent, Hg.
    split; intros Hcmp.
    + apply Z.ltb_lt in Hcmp. rewrite Hcmp. reflexivity.
    + apply Z.ltb_ge in Hcmp. rewrite Hcmp. reflexivity.
  - intros err H. unfold tuneWriteBuffer, call, bind.
    change libyalinkDesiredWriteBuffer with 8388608%Z. rewrite H. reflexivity.
  - intros H granted Hg. unfold tuneWriteBuffer.
    change libyalinkDesiredWriteBuffer with 8388608%Z.
    rewrite logged_bind. unfold call. cbn [fst snd]. rewrite H.
    cbn [fst snd].
    rewrite logged_bind, getUDPWriteBufferSize_silent, Hg.
    split; intros Hcmp.
    + apply Z.ltb_lt in Hcmp. rewrite Hcmp. reflexivity.
    + apply Z.ltb_ge in Hcmp. rewrite Hcmp. reflexivity.
Qed.

Lemma tuner_classification_witness :
  logged (tuneReadBuffer stockConn).1
  = [{| lvl := WarnLevel;
        msg := "[LibyaLink] Requested 8MB read buffer -> OS granted 208KB. Warning: Run the tuning script to unlock full speed. See docs/libya_tuning.md";
        fields := [zapInt "requested_bytes" 8388608;
                   zapInt "granted_bytes" 212992] |}] /\
  logged (tuneWriteBuffer tunedConn).1
  = [{| lvl := InfoLevel;
        msg := "[LibyaLink] UDP write buffer: requested 8MB -> granted 16MB. Optimal!";
        fields := [zapInt "granted_bytes" 16777216] |}] /\
  logged (tuneReadBuffer closedConn).1
  = [{| lvl := WarnLevel;
        msg := "[LibyaLink] Failed to set UDP read buffer";
        fields := [zapInt "requested_bytes" 8388608;
                   zapError {| kind := ErrOther;
                               errText := "use of closed network connection" |}] |}].
Proof.
  split; [|split].
  - destruct (tuner_classification stockConn) as (_ & H & _).
    destruct (H eq_refl 212992%Z eq_refl) as [Hlow _].
    rewrite Hlow by lia. reflexivity.
  - destruct (tuner_classification tunedConn) as (_ & _ & _ & H).
    destruct (H eq_refl 16777216%Z eq_refl) as [_ Hhigh].
    rewrite Hhigh by lia. reflexivity.
  - destruct (tuner_classification closedConn) as (H & _).
    rewrite (H _ eq_refl). reflexivity.
Defined.

(** C3 as stated fails on the message: with 8388608 requested and 212992
    granted the warning reads 8MB and 208KB; neither number appears in the
    message as it is. *)
Lemma shortfall_message_not_verbatim :
  exists e,
    logged (tuneReadBuffer stockConn).1 = [e] /\
    lvl e = WarnLevel /\
    msg e = "[LibyaLink] Requested 8MB read buffer -> OS granted 208KB. Warning: Run the tuning script to unlock full speed. See docs/libya_tuning.md" /\
    Contains (msg e) "8388608" = false /\
    Contains (msg e) "212992" = false.
Proof. eexists. repeat split; reflexivity. Qed.

(** C10: called with a nil connection or with a nil logger, the tuner
    returns at once: it makes no call on the connection and logs nothing. *)
Theorem tuner_nil_guard :
  (forall log, tuneUDPBuffer None log = ([], tt)) /\
  (forall conn, tuneUDPBuffer conn None = ([], tt)).
Proof.
  split.
  - intros log. reflexivity.
  - intros [conn|]; reflexivity.
Qed.

End BuffersSpec.

(** ** Further properties of the checks *)

Module ChecksSpec.
Import Go Doctor Samples Notions Shapes.

Lemma checkOK_neq_checkFail : checkOK <> checkFail.
Proof. discriminate. Qed.

Lemma checkOK_neq_checkWarn : checkOK <> checkWarn.
Proof. discriminate. Qed.

(** *** File-level check *)

Lemma checkFileReadable_name (w : World) (name path : string) :
  Name (checkFileReadable w name path) = name.
Proof.
  unfold checkFileReadable.
  destruct (Stat w path) as [[[] txt]|info];
    cbn [IsNotExist IsPermission kind]; try reflexivity.
  destruct (Open w path); [reflexivity|].
  destruct (Size info =? 0)%Z; reflexivity.
Qed.

Lemma checkFileReadable_status (w : World) (name path : string) :
  Status (checkFileReadable w name path) = checkOK \/
  Status (checkFileReadable w name path) = checkFail.
Proof.
  unfold checkFileReadable.
  destruct (Stat w path) as [[[] txt]|info];
    cbn [IsNotExist IsPermission kind]; try (right; reflexivity).
  destruct (Open w path); [right; reflexivity|].
  destruct (Size info =? 0)%Z; [right | left]; reflexivity.
Qed.

Lemma checkFileReadable_message (w : World) (name path : string) :
  Message (checkFileReadable w name path) <> "".
Proof.
  unfold checkFileReadable.
  destruct (Stat w path) as [[[] txt]|info];
    cbn [IsNotExist IsPermission kind]; try discriminate.
  destruct (Open w path); [discriminate|].
  destruct (Size info =? 0)%Z; discriminate.
Qed.

(** X1: the file check keeps the name it was given and answers OK or FAIL,
    never WARN; it answers OK exactly when the path can be stat'ed, can be
    opened, and the file is not empty. *)
Theorem checkFileReadable_ok_iff (w : World) (name path : string) :
  Name (checkFileReadable w name path) = name /\
  (Status (checkFileReadable w name path) = checkOK \/
   Status (checkFileReadable w name path) = checkFail) /\
  (Status (checkFileReadable w name path) = checkOK <->
   exists info, Stat w path = inr info /\ Open w path = None /\
                Size info <> 0%Z).
Proof.
  unfold checkFileReadable.
  destruct (Stat w path) as [[[] txt]|info] eqn:S; cbn [IsNotExist IsPermission kind].
  1-3: (split; [reflexivity|]; split; [right; reflexivity|]; split;
        [intros H; discriminate H | intros (i & Hi & _); discriminate Hi]).
  destruct (Open w path) as [e|] eqn:O.
  - split; [reflexivity|]. split; [right; reflexivity|]. split.
    + intros H; discriminate H.
    + intros (i & _ & Ho & _). discriminate Ho.
  - destruct (Z.eqb_spec (Size info) 0) as [Z0|Z0].
    + split; [reflexivity|]. split; [right; reflexivity|]. split.
      * intros H; discriminate H.
      * intros (i & Hi & _ & Hs). injection Hi as <-. contradiction.
    + split; [reflexivity|]. split; [left; reflexivity|]. split.
      * intros _. exists info. auto.
      * intros _. reflexivity.
Qed.

(** *** TLS file check *)

Lemma checkTLSFiles_unfold (w : World) :
  IsSet w "tls" = true ->
  checkTLSFiles w
  = [if String.eqb (GetString w "tls.cert") ""
     then {| Name := "TLS Cert"; Status := checkFail;
             Message := "tls.cert path is empty." |}
     else checkFileReadable w "TLS Cert" (GetString w "tls.cert");
     if String.eqb (GetString w "tls.key") ""
     then {| Name := "TLS Key"; Status := checkFail;
             Message := "tls.key path is empty." |}
     else checkFileReadable w "TLS Key" (GetString w "tls.key")]
    ++ (if negb (String.eqb (GetString w "tls.cert") "")
           && negb (String.eqb (GetString w "tls.key") "")
        then
          match LoadX509KeyPair w (GetString w "tls.cert")
                                  (GetString w "tls.key") with
          | Some err =>
              [{| Name := "TLS Pair"; Status := checkFail;
                  Message := "Certificate/Key pair is invalid: "
                             +:+ errText err |}]
          | None =>
              [{| Name := "TLS Pair"; Status := checkOK;
                  Message := "Certificate and key pair loaded successfully." |}]
          end
        else []).
Proof.
  intros Htls. unfold checkTLSFiles. rewrite Htls. cbv zeta. cbn [negb].
  destruct (String.eqb (GetString w "tls.cert") "");
    destruct (String.eqb (GetString w "tls.key") "");
    cbn [negb andb app];
    repeat match goal with
           | |- context [if negb (String.eqb (Status ?r) checkOK) then _ else _] =>
               destruct (negb (String.eqb (Status r) checkOK))
           end;
    try destruct (LoadX509KeyPair w _ _); reflexivity.
Qed.

(** X2: without the [tls] key the TLS file check returns nothing.  With it,
    the check always returns a certificate result followed by a key result,
    in that order; an empty path is a FAIL of its own and rules out the
    pair-level result; two non-empty paths add exactly one pair-level
    result. *)
Theorem checkTLSFiles_shape (w : World) :
  (IsSet w "tls" = false -> checkTLSFiles w = []) /\
  (IsSet w "tls" = true ->
   exists c k rest,
     checkTLSFiles w = c :: k :: rest /\
     Name c = "TLS Cert" /\ Name k = "TLS Key" /\
     (GetString w "tls.cert" = "" ->
      c = {| Name := "TLS Cert"; Status := checkFail;
             Message := "tls.cert path is empty." |} /\ rest = []) /\
     (GetString w "tls.key" = "" ->
      k = {| Name := "TLS Key"; Status := checkFail;
             Message := "tls.key path is empty." |} /\ rest = []) /\
     (GetString w "tls.cert" <> "" -> GetString w "tls.key" <> "" ->
      exists p, rest = [p] /\ Name p = "TLS Pair")).
Proof.
  split.
  - intros H. unfold checkTLSFiles. rewrite H. reflexivity.
  - intros H. rewrite (checkTLSFiles_unfold w H).
    eexists _, _, _. split; [reflexivity|].
    destruct (String.eqb_spec (GetString w "tls.cert") "") as [Ec|Ec];
      destruct (String.eqb_spec (GetString w "tls.key") "") as [Ek|Ek];
      cbn [negb andb];
      (split; [first [reflexivity | apply checkFileReadable_name]|]);
      (split; [first [reflexivity | apply checkFileReadable_name]|]);
      repeat split; intros; try contradiction; try reflexivity.
    destruct (LoadX509KeyPair w _ _); eexists; split; reflexivity.
Qed.

Lemma checkTLSFiles_shape_witness :
  checkTLSFiles noConfig = [] /\
  exists c k p, checkTLSFiles goodTLS = [c; k; p] /\ Name p = "TLS Pair".
Proof.
  split; [apply (proj1 (checkTLSFiles_shape noConfig)); reflexivity|].
  destruct (proj2 (checkTLSFiles_shape goodTLS) eq_refl)
    as (c & k & rest & E & _ & _ & _ & _ & Hp).
  destruct Hp as (p & -> & Hn); [discriminate | discriminate |].
  exists c, k, p. split; [exact E | exact Hn].
Defined.

(** X3: in certificate mode every result of the TLS file check is OK
    exactly when both paths are set, both files pass the file-level check
    and the pair loads; any one of these missing shows as a FAIL. *)
Theorem checkTLSFiles_all_ok_iff (w : World) :
  IsSet w "tls" = true ->
  (allOK (checkTLSFiles w) <->
   GetString w "tls.cert" <> "" /\
   GetString w "tls.key" <> "" /\
   Status (checkFileReadable w "TLS Cert" (GetString w "tls.cert")) = checkOK /\
   Status (checkFileReadable w "TLS Key" (GetString w "tls.key")) = checkOK /\
   LoadX509KeyPair w (GetString w "tls.cert") (GetString w "tls.key") = None).
Proof.
  intros Htls. unfold allOK. rewrite (checkTLSFiles_unfold w Htls).
  destruct (String.eqb_spec (GetString w "tls.cert") "") as [Ec|Ec];
    destruct (String.eqb_spec (GetString w "tls.key") "") as [Ek|Ek];
    cbn [negb andb app]; rewrite ?Forall_cons.
  - split; [intros (H & _); discriminate H | intros (H & _); contradiction].
  - split; [intros (H & _); discriminate H | intros (H & _); contradiction].
  - split; [intros (_ & H & _); discriminate H | intros (_ & H & _); contradiction].
  - destruct (LoadX509KeyPair w _ _) as [err|]; cbn [app]; rewrite ?Forall_cons.
    + split; [intros (_ & _ & H & _); discriminate H
             | intros (_ & _ & _ & _ & H); discriminate H].
    + split.
      * intros (Hc & Hk & _). auto.
      * intros (_ & _ & Hc & Hk & _).
        repeat split; try assumption. constructor.
Qed.

Lemma checkTLSFiles_all_ok_iff_witness :
  allOK (checkTLSFiles goodTLS) /\ ~ allOK (checkTLSFiles missingCert).
Proof.
  split.
  - apply (proj2 (checkTLSFiles_all_ok_iff goodTLS eq_refl)).
    repeat split; try discriminate; reflexivity.
  - intros H.
    apply (proj1 (checkTLSFiles_all_ok_iff missingCert eq_refl)) in H.
    destruct H as (_ & _ & Hc & _). discriminate Hc.
Defined.

(** *** Port check *)

Lemma checkPortAvailability_cases d w socks :
  exists r,
    checkPortAvailability d w socks = ([r], socks) /\
    Name r = "UDP Port" /\
    (Status r = checkOK \/ Status r = checkFail) /\
    Message r <> "" /\
    (Status r = checkOK <->
     exists a conn socks1,
       ResolveUDPAddr w (listenAddrOf d w) = inr a /\
       ListenUDP w socks a = inr (conn, socks1)).
Proof.
  unfold checkPortAvailability. cbv zeta. fold (listenAddrOf d w).
  destruct (ResolveUDPAddr w (listenAddrOf d w)) as [err|a] eqn:R.
  { eexists. split; [reflexivity|]. split; [reflexivity|].
    split; [right; reflexivity|]. split; [discriminate|]. split.
    - intros H; discriminate H.
    - intros (a & c & s1 & Ha & _). discriminate Ha. }
  destruct (ListenUDP w socks a) as [err|[conn socks1]] eqn:L.
  - destruct (_ || _); [|destruct (_ || _)];
      (eexists; split; [reflexivity|]; split; [reflexivity|];
       split; [right; reflexivity|]; split; [discriminate|]; split;
       [intros H; discriminate H
       |intros (a' & c & s1 & Ha & Hb); injection Ha as <-;
        rewrite L in Hb; discriminate Hb]).
  - destruct (DoctorSpec.ListenUDP_success _ _ _ _ _ L) as (Hfree & Hc & Hs).
    subst conn socks1.
    rewrite (DoctorSpec.Close_after_listen a socks Hfree).
    eexists. split; [reflexivity|]. split; [reflexivity|].
    split; [left; reflexivity|]. split; [discriminate|]. split.
    + intros _. exists a. eauto.
    + intros _. reflexivity.
Qed.

(** X4: on every path, failed address resolution, failed bind (address in
    use, permission denied, any other error) or success, the port check
    returns exactly one result named [UDP Port] and leaves the table of
    bound sockets as it found it; the result is OK exactly when the listen
    address resolves and the bind of the resolved address succeeds, and
    FAIL otherwise. *)
Theorem checkPortAvailability_frame
    (defaultListenAddr : string) (w : World) (socks : gset UDPAddr) :
  exists r,
    checkPortAvailability defaultListenAddr w socks = ([r], socks) /\
    Name r = "UDP Port" /\
    (Status r = checkOK \/ Status r = checkFail) /\
    (Status r = checkOK <->
     exists a conn socks1,
       ResolveUDPAddr w (listenAddrOf defaultListenAddr w) = inr a /\
       ListenUDP w socks a = inr (conn, socks1)).
Proof.
  destruct (checkPortAvailability_cases defaultListenAddr w socks)
    as (r & H1 & H2 & H3 & _ & H4).
  exists r. auto.
Qed.

(** *** UDP buffer check *)

Lemma checkBufferValue_status w name valStr recommended :
  Status (checkBufferValue w name valStr recommended)
  = if (recommended <=? SscanInt w valStr)%Z then checkOK else checkWarn.
Proof.
  unfold checkBufferValue. cbv zeta. rewrite Z.geb_leb.
  destruct (_ <=? _)%Z; reflexivity.
Qed.

Lemma checkBufferValue_wellFormed w name valStr recommended :
  name <> "" -> wellFormed (checkBufferValue w name valStr recommended).
Proof.
  intros Hn. unfold wellFormed, checkBufferValue. cbv zeta.
  destruct (_ >=? _)%Z; cbn [Status Name Message];
    (split; [auto|]; split; [exact Hn|]);
    destruct (itoa (SscanInt w valStr)); discriminate.
Qed.

(** The buffer check on Linux: one result per ceiling that could be read,
    or the single warning when none could. *)
Lemma checkUDPBuffers_linux (w : World) :
  GOOS w = "linux" ->
  checkUDPBuffers w
  = match ReadFile w "/proc/sys/net/core/rmem_max",
          ReadFile w "/proc/sys/net/core/wmem_max" with
    | inr r, inr s =>
        [checkBufferValue w "UDP rmem_max" (TrimSpace w r) 8388608;
         checkBufferValue w "UDP wmem_max" (TrimSpace w s) 8388608]
    | inr r, inl _ =>
        [checkBufferValue w "UDP rmem_max" (TrimSpace w r) 8388608]
    | inl _, inr s =>
        [checkBufferValue w "UDP wmem_max" (TrimSpace w s) 8388608]
    | inl _, inl _ =>
        [{| Name := "UDP Buffers"; Status := checkWarn;
            Message := "Could not read sysctl buffer values. Run 'sysctl net.core.rmem_max' manually." |}]
    end.
Proof.
  intros H. unfold checkUDPBuffers. rewrite H. cbn [String.eqb Ascii.eqb Bool.eqb negb].
  destruct (ReadFile w "/proc/sys/net/core/rmem_max"),
           (ReadFile w "/proc/sys/net/core/wmem_max"); reflexivity.
Qed.

Lemma checkUDPBuffers_other_os (w : World) :
  GOOS w <> "linux" ->
  checkUDPBuffers w
  = [{| Name := "UDP Buffers"; Status := checkWarn;
        Message := "Buffer check only runs on Linux (current OS: " +:+ GOOS w
                   +:+ "). See docs/libya_tuning.md" |}].
Proof.
  intros H. unfold checkUDPBuffers. apply String.eqb_neq in H. rewrite H.
  reflexivity.
Qed.

Lemma checkUDPBuffers_length (w : World) :
  (1 <= length (checkUDPBuffers w))%nat /\ (length (checkUDPBuffers w) <= 2)%nat.
Proof.
  destruct (String.eqb_spec (GOOS w) "linux") as [L|L].
  - rewrite (checkUDPBuffers_linux w L).
    destruct (ReadFile w "/proc/sys/net/core/rmem_max"),
             (ReadFile w "/proc/sys/net/core/wmem_max"); cbn [length]; lia.
  - rewrite (checkUDPBuffers_other_os w L). cbn [length]. lia.
Qed.

(** X6: the buffer check always returns one or two results and none of them
    is ever a FAIL: a low or unreadable ceiling can only warn.  Off Linux,
    and on Linux when neither ceiling can be read, the result is a single
    WARN. *)
Theorem checkUDPBuffers_never_fails (w : World) :
  (1 <= length (checkUDPBuffers w) <= 2)%nat /\
  Forall (fun r => Status r = checkOK \/ Status r = checkWarn)
         (checkUDPBuffers w) /\
  (GOOS w <> "linux" -> map Status (checkUDPBuffers w) = [checkWarn]) /\
  ((forall p, p ∈ ceilingFiles -> exists e, ReadFile w p = inl e) ->
   map Status (checkUDPBuffers w) = [checkWarn]).
Proof.
  destruct (String.eqb_spec (GOOS w) "linux") as [L|L].
  - rewrite (checkUDPBuffers_linux w L).
    destruct (ReadFile w "/proc/sys/net/core/rmem_max") as [e1|r] eqn:R1,
             (ReadFile w "/proc/sys/net/core/wmem_max") as [e2|s] eqn:R2;
      (split; [cbn [length]; lia|]); (split;
        [rewrite ?Forall_cons, ?checkBufferValue_status;
         repeat match goal with
                | |- context [(?a <=? ?b)%Z] => destruct (a <=? b)%Z
                end;
         repeat split; auto; apply Forall_nil_2|]);
      (split; [intros; contradiction|]); intros Hall;
      try reflexivity.
    + destruct (Hall "/proc/sys/net/core/wmem_max") as [e He];
        [unfold ceilingFiles; set_solver | congruence].
    + destruct (Hall "/proc/sys/net/core/rmem_max") as [e He];
        [unfold ceilingFiles; set_solver | congruence].
    + destruct (Hall "/proc/sys/net/core/rmem_max") as [e He];
        [unfold ceilingFiles; set_solver | congruence].
  - rewrite (checkUDPBuffers_other_os w L).
    split; [cbn [length]; lia|].
    split; [rewrite Forall_cons; split; [auto | apply Forall_nil_2]|].
    split; intros; reflexivity.
Qed.

Lemma checkUDPBuffers_never_fails_witness :
  map Status (checkUDPBuffers (onOS "darwin" noConfig)) = [checkWarn] /\
  map Status (checkUDPBuffers (onOS "linux" noConfig)) = [checkWarn].
Proof.
  split.
  - destruct (checkUDPBuffers_never_fails (onOS "darwin" noConfig))
      as (_ & _ & H & _).
    apply H. discriminate.
  - destruct (checkUDPBuffers_never_fails (onOS "linux" noConfig))
      as (_ & _ & _ & H).
    apply H. intros p _. eexists. reflexivity.
Defined.


(** *** Every result of a run *)

Lemma checkConfigReadable_single (w : World) :
  exists r, checkConfigReadable w = [r] /\ Name r = "Config File" /\
            wellFormed r /\
            (Status r = checkFail <-> ReadInConfig w <> None).
Proof.
  unfold checkConfigReadable, wellFormed.
  destruct (ReadInConfig w) as [e|]; eexists; (split; [reflexivity|]);
    cbn [Name Status Message]; (split; [reflexivity|]);
    (split; [repeat split; auto; discriminate|]).
  - split; [intros _; discriminate | intros _; reflexivity].
  - split; [intros H; discriminate H | intros H; contradiction].
Qed.

Lemma checkTLSACMEConflict_wellFormed (w : World) :
  Forall wellFormed (checkTLSACMEConflict w).
Proof.
  unfold checkTLSACMEConflict, wellFormed.
  destruct (String.eqb _ ""); [apply Forall_nil_2|].
  destruct (IsSet w "tls"), (IsSet w "acme"); cbn [andb negb];
    rewrite Forall_cons; cbn [Name Status Message];
    repeat split; auto; try discriminate; apply Forall_nil_2.
Qed.

Lemma checkFileReadable_wellFormed (w : World) (name path : string) :
  name <> "" -> wellFormed (checkFileReadable w name path).
Proof.
  intros Hn. unfold wellFormed. rewrite checkFileReadable_name.
  split; [|split; [exact Hn | apply checkFileReadable_message]].
  destruct (checkFileReadable_status w name path); auto.
Qed.

Lemma checkTLSFiles_wellFormed (w : World) :
  Forall wellFormed (checkTLSFiles w).
Proof.
  destruct (IsSet w "tls") eqn:Htls.
  2: { unfold checkTLSFiles. rewrite Htls. apply Forall_nil_2. }
  rewrite (checkTLSFiles_unfold w Htls).
  apply Forall_app. split.
  - rewrite !Forall_cons. split; [|split; [|apply Forall_nil_2]].
    + destruct (String.eqb _ "");
        [unfold wellFormed; cbn [Name Status Message]; repeat split; auto; discriminate
        |apply checkFileReadable_wellFormed; discriminate].
    + destruct (String.eqb _ "");
        [unfold wellFormed; cbn [Name Status Message]; repeat split; auto; discriminate
        |apply checkFileReadable_wellFormed; discriminate].
  - destruct (_ && _); [|apply Forall_nil_2].
    destruct (LoadX509KeyPair w _ _); rewrite Forall_cons;
      (split; [|apply Forall_nil_2]);
      unfold wellFormed; cbn [Name Status Message];
      repeat split; auto; discriminate.
Qed.

Lemma checkUDPBuffers_wellFormed (w : World) :
  Forall wellFormed (checkUDPBuffers w).
Proof.
  destruct (String.eqb_spec (GOOS w) "linux") as [L|L].
  - rewrite (checkUDPBuffers_linux w L).
    destruct (ReadFile w "/proc/sys/net/core/rmem_max"),
             (ReadFile w "/proc/sys/net/core/wmem_max");
      rewrite ?Forall_cons; repeat split;
      try apply Forall_nil_2;
      try (apply checkBufferValue_wellFormed; discriminate);
      cbn [Status Name Message]; auto; discriminate.
  - rewrite (checkUDPBuffers_other_os w L), Forall_cons.
    split; [|apply Forall_nil_2].
    unfold wellFormed. cbn [Status Name Message].
    repeat split; auto; discriminate.
Qed.

Lemma checkAuthConfig_single (w : World) :
  exists r, checkAuthConfig w = [r] /\ Name r = "Auth" /\ wellFormed r /\
            (GetString w "auth.type" = "" -> Status r = checkFail).
Proof.
  unfold checkAuthConfig, wellFormed. cbv zeta.
  destruct (String.eqb_spec (GetString w "auth.type") "") as [E|E].
  { eexists. split; [reflexivity|]. cbn [Name Status Message].
    repeat split; auto; discriminate. }
  repeat match goal with
         | |- context [if ?b then _ else _] => destruct b
         end;
    (eexists; split; [reflexivity|]); cbn [Name Status Message];
    repeat split; auto; try discriminate; try contradiction.
Qed.

Lemma runChecks_unfold d w socks :
  runChecks d w socks
  = (checkConfigReadable w ++ checkTLSACMEConflict w ++ checkTLSFiles w
     ++ (checkPortAvailability d w socks).1 ++ checkUDPBuffers w
     ++ checkAuthConfig w,
     socks).
Proof.
  unfold runChecks.
  destruct (checkPortAvailability_cases d w socks) as (r & E & _).
  rewrite E. cbn [fst app]. rewrite <- !app_assoc. reflexivity.
Qed.

Lemma runChecks_wellFormed d w socks :
  Forall wellFormed (runChecks d w socks).1.
Proof.
  rewrite runChecks_unfold. cbn [fst].
  destruct (checkConfigReadable_single w) as (c & -> & _ & Hc & _).
  destruct (checkAuthConfig_single w) as (a & -> & _ & Ha & _).
  destruct (checkPortAvailability_cases d w socks)
    as (r & -> & Hn & Hs & Hm & _).
  cbn [fst].
  repeat (apply Forall_app; split);
    try apply checkTLSACMEConflict_wellFormed;
    try apply checkTLSFiles_wellFormed;
    try apply checkUDPBuffers_wellFormed;
    rewrite Forall_cons; (split; [|apply Forall_nil_2]); try assumption.
  unfold wellFormed. rewrite Hn. repeat split; try assumption; try discriminate.
  destruct Hs; auto.
Qed.

(** X8: every result of every run is well formed: its status is one of
    the three glyphs, and its name and its message are not empty. *)
Theorem run_results_wellFormed
    (defaultListenAddr : string) (w : World) (socks : gset UDPAddr) :
  Forall wellFormed (runChecks defaultListenAddr w socks).1.
Proof. apply runChecks_wellFormed. Qed.

Lemma checkTLSACMEConflict_length (w : World) :
  (length (checkTLSACMEConflict w) <= 1)%nat.
Proof.
  unfold checkTLSACMEConflict.
  repeat match goal with |- context [if ?b then _ else _] => destruct b end;
    cbn [length]; lia.
Qed.

Lemma checkTLSFiles_length (w : World) :
  (length (checkTLSFiles w) <= 3)%nat.
Proof.
  destruct (IsSet w "tls") eqn:Htls.
  - rewrite (checkTLSFiles_unfold w Htls), length_app.
    destruct (_ && _); [destruct (LoadX509KeyPair w _ _)|]; cbn [length]; lia.
  - unfold checkTLSFiles. rewrite Htls. cbn [negb length]. lia.
Qed.

(** X9: every run returns between four and nine results, the config-file
    result first and the auth result last, with the port result in between,
    and hands back the table of bound sockets unchanged. *)
Theorem runChecks_shape
    (defaultListenAddr : string) (w : World) (socks : gset UDPAddr) :
  exists cfg mid auth,
    runChecks defaultListenAddr w socks = (cfg :: mid ++ [auth], socks) /\
    Name cfg = "Config File" /\
    Name auth = "Auth" /\
    (2 <= length mid <= 7)%nat /\
    (exists port, port ∈ mid /\ Name port = "UDP Port").
Proof.
  rewrite runChecks_unfold.
  destruct (checkConfigReadable_single w) as (c & -> & Hc & _).
  destruct (checkAuthConfig_single w) as (a & -> & Ha & _).
  destruct (checkPortAvailability_cases defaultListenAddr w socks)
    as (r & -> & Hn & _).
  cbn [fst].
  exists c, (checkTLSACMEConflict w ++ checkTLSFiles w ++ [r] ++ checkUDPBuffers w), a.
  split; [cbn [app]; rewrite <- !app_assoc; reflexivity|].
  split; [exact Hc|]. split; [exact Ha|]. split.
  - rewrite !length_app. cbn [length].
    pose proof (checkTLSACMEConflict_length w).
    pose proof (checkTLSFiles_length w).
    destruct (checkUDPBuffers_length w). lia.
  - exists r. split; [|exact Hn].
    rewrite !elem_of_app. right. right. left.
    rewrite elem_of_cons. left. reflexivity.
Qed.

(** *** The report of a run *)

Lemma verdict_of_counts (fails warns : nat) :
  verdict (Z.of_nat fails) (Z.of_nat warns)
  = match fails, warns with
    | O, O => allClearLine
    | O, S _ => degradedLine warns
    | S _, _ => brokenLine fails warns
    end.
Proof.
  unfold verdict.
  destruct fails as [|f]; destruct warns as [|n];
    cbn [Z.of_nat Z.eqb andb]; reflexivity.
Qed.

Lemma allClearLine_not_degraded warns : allClearLine <> degradedLine warns.
Proof. unfold allClearLine, degradedLine, Println. simpl. discriminate. Qed.

Lemma allClearLine_not_broken fails warns : allClearLine <> brokenLine fails warns.
Proof. unfold allClearLine, brokenLine, Println. simpl. discriminate. Qed.

Lemma countStatus_pos (s : string) (results : list checkResult) (r : checkResult) :
  r ∈ results -> Status r = s -> (1 <= countStatus s results)%nat.
Proof.
  intros Hin Hs. induction Hin as [r results|r r' results _ IH].
  - rewrite DoctorSpec.countStatus_cons.
    apply String.eqb_eq in Hs. rewrite Hs. lia.
  - rewrite DoctorSpec.countStatus_cons. specialize (IH Hs). lia.
Qed.

Lemma counts_zero_iff_allOK (results : list checkResult) :
  Forall wellFormed results ->
  (countStatus checkFail results = 0%nat /\
   countStatus checkWarn results = 0%nat <-> allOK results).
Proof.
  unfold allOK. induction 1 as [|r results [Hst _] _ IH].
  - split; [intros _; apply Forall_nil_2 | intros _; split; reflexivity].
  - rewrite !DoctorSpec.countStatus_cons, Forall_cons.
    destruct Hst as [E|[E|E]]; rewrite E.
    + cbn [String.eqb Ascii.eqb Bool.eqb]. cbn [Nat.add].
      rewrite IH. split; [intros H; split; [reflexivity | exact H]
                         |intros [_ H]; exact H].
    + split; [intros [_ H]; discriminate H | intros [H _]; discriminate H].
    + split; [intros [H _]; discriminate H | intros [H _]; discriminate H].
Qed.

(** X10: for every run, with no bound to assume, the command writes the
    banner, the results header, one line per result in the order of the
    checks, and the verdict for the exact numbers of FAIL and WARN results
    of that run; it writes nothing else and leaves the table of bound
    sockets unchanged. *)
Theorem runDoctor_end_to_end
    (defaultListenAddr : string) (w : World) (socks : gset UDPAddr) :
  runDoctor defaultListenAddr w socks
  = (banner
     ++ [Println "─── Diagnostic Results ───"; Println ""]
     ++ map resultLine (runChecks defaultListenAddr w socks).1
     ++ [Println ""; Println "──────────────────────────";
         verdictOf (runChecks defaultListenAddr w socks).1;
         Println ""],
     socks).
Proof.
  pose proof (DoctorSpec.run_results_fit_int defaultListenAddr w socks) as B.
  unfold runDoctor. rewrite runChecks_unfold in *. cbn [fst] in *.
  destruct (DoctorSpec.reportLoop_counts _ B) as [Hf Hw].
  unfold report, verdictOf.
  rewrite DoctorSpec.reportLoop_printed, Hf, Hw. reflexivity.
Qed.

(** X11: the verdict of a run is the all-clear line exactly when every
    result of the run is OK. *)
Theorem run_all_clear_iff
    (defaultListenAddr : string) (w : World) (socks : gset UDPAddr) :
  verdictOf (runChecks defaultListenAddr w socks).1 = allClearLine <->
  allOK (runChecks defaultListenAddr w socks).1.
Proof.
  pose proof (runChecks_wellFormed defaultListenAddr w socks) as WF.
  rewrite <- (counts_zero_iff_allOK _ WF).
  unfold verdictOf. rewrite verdict_of_counts.
  destruct (countStatus checkFail _) as [|f];
    destruct (countStatus checkWarn _) as [|n].
  - split; [intros _; split; reflexivity | intros _; reflexivity].
  - split; [intros H; symmetry in H; apply allClearLine_not_degraded in H; contradiction
           |intros [_ H]; discriminate H].
  - split; [intros H; symmetry in H; apply allClearLine_not_broken in H; contradiction
           |intros [H _]; discriminate H].
  - split; [intros H; symmetry in H; apply allClearLine_not_broken in H; contradiction
           |intros [H _]; discriminate H].
Qed.

(** X12: a run whose configuration cannot be read, or whose [auth.type] is
    missing, always ends in the broken verdict, whatever the other checks
    find; and a run on an operating system other than Linux never ends in
    the all-clear verdict, because the buffer check can only warn there. *)
Theorem run_verdict_floor
    (defaultListenAddr : string) (w : World) (socks : gset UDPAddr) :
  (ReadInConfig w <> None \/ GetString w "auth.type" = "" ->
   exists fails warns,
     (1 <= fails)%nat /\
     verdictOf (runChecks defaultListenAddr w socks).1 = brokenLine fails warns) /\
  (GOOS w <> "linux" ->
   exists fails warns,
     (1 <= warns)%nat /\
     verdictOf (runChecks defaultListenAddr w socks).1
     = match fails with
       | O => degradedLine warns
       | S _ => brokenLine fails warns
       end).
Proof.
  unfold verdictOf. rewrite verdict_of_counts, runChecks_unfold. cbn [fst].
  split.
  - intros H.
    assert (P : (1 <= countStatus checkFail
                   (checkConfigReadable w ++ checkTLSACMEConflict w
                    ++ checkTLSFiles w
                    ++ (checkPortAvailability defaultListenAddr w socks).1
                    ++ checkUDPBuffers w ++ checkAuthConfig w))%nat).
    { destruct H as [H|H].
      - destruct (checkConfigReadable_single w) as (c & E & _ & _ & Hc).
        apply (countStatus_pos _ _ c); [|apply Hc, H].
        rewrite E, elem_of_app. left. rewrite elem_of_cons. left. reflexivity.
      - destruct (checkAuthConfig_single w) as (a & E & _ & _ & Ha).
        apply (countStatus_pos _ _ a); [|apply Ha, H].
        rewrite E, !elem_of_app. do 5 right.
        rewrite elem_of_cons. left. reflexivity. }
    destruct (countStatus checkFail _) as [|f]; [lia|].
    eexists _, _. split; [|reflexivity]. lia.
  - intros H.
    assert (P : (1 <= countStatus checkWarn
                   (checkConfigReadable w ++ checkTLSACMEConflict w
                    ++ checkTLSFiles w
                    ++ (checkPortAvailability defaultListenAddr w socks).1
                    ++ checkUDPBuffers w ++ checkAuthConfig w))%nat).
    { rewrite (checkUDPBuffers_other_os w H).
      apply (countStatus_pos _ _
               {| Name := "UDP Buffers"; Status := checkWarn;
                  Message := "Buffer check only runs on Linux (current OS: "
                             +:+ GOOS w +:+ "). See docs/libya_tuning.md" |});
        [|reflexivity].
      rewrite !elem_of_app. do 4 right. left.
      rewrite elem_of_cons. left. reflexivity. }
    destruct (countStatus checkWarn _) as [|n] eqn:E; [lia|].
    exists (countStatus checkFail
              (checkConfigReadable w ++ checkTLSACMEConflict w
               ++ checkTLSFiles w
               ++ (checkPortAvailability defaultListenAddr w socks).1
               ++ checkUDPBuffers w ++ checkAuthConfig w)), (S n).
    split; [lia|].
    destruct (countStatus checkFail _); reflexivity.
Qed.

Lemma run_verdict_floor_witness :
  (exists fails warns,
     (1 <= fails)%nat /\
     verdictOf (runChecks ":443" noConfig ∅).1 = brokenLine fails warns) /\
  (exists fails warns,
     (1 <= warns)%nat /\
     verdictOf (runChecks ":443" (onOS "darwin" goodTLS) ∅).1
     = match fails with
       | O => degradedLine warns
       | S _ => brokenLine fails warns
       end).
Proof.
  split.
  - apply (proj1 (run_verdict_floor ":443" noConfig ∅)). left. discriminate.
  - apply (proj2 (run_verdict_floor ":443" (onOS "darwin" goodTLS) ∅)).
    discriminate.
Defined.

End ChecksSpec.

(** ** Further properties of the buffer tuner *)

Module TunerSpec.
Import Go Buffers Samples Shapes.

Lemma tuneReadBuffer_one_entry (conn : UDPConn) :
  exists e, logged (tuneReadBuffer conn).1 = [e].
Proof.
  unfold tuneReadBuffer. rewrite BuffersSpec.logged_bind.
  unfold call. cbn [fst snd].
  destruct (SetReadBuffer conn libyalinkDesiredReadBuffer).
  - eexists. reflexivity.
  - rewrite BuffersSpec.logged_bind, BuffersSpec.getUDPReadBufferSize_silent.
    destruct (_ <? _)%Z; eexists; reflexivity.
Qed.

Lemma tuneWriteBuffer_one_entry (conn : UDPConn) :
  exists e, logged (tuneWriteBuffer conn).1 = [e].
Proof.
  unfold tuneWriteBuffer. rewrite BuffersSpec.logged_bind.
  unfold call. cbn [fst snd].
  destruct (SetWriteBuffer conn libyalinkDesiredWriteBuffer).
  - eexists. reflexivity.
  - rewrite BuffersSpec.logged_bind, BuffersSpec.getUDPWriteBufferSize_silent.
    destruct (_ <? _)%Z; eexists; reflexivity.
Qed.

Lemma tuneUDPBuffer_trace (conn : UDPConn) (log : Logger) :
  (tuneUDPBuffer (Some conn) (Some log)).1
  = [Log tuningStarted] ++ (tuneReadBuffer conn).1 ++ (tuneWriteBuffer conn).1.
Proof.
  unfold tuneUDPBuffer, bind, logInfo, call.
  destruct (tuneReadBuffer conn) as [tr1 []].
  destruct (tuneWriteBuffer conn) as [tr2 []]. reflexivity.
Qed.

(** X13: called with a connection and a logger, the tuner logs exactly
    three entries: the opening line, then one outcome for the read buffer,
    then one outcome for the write buffer.  The write buffer is tuned and
    reported whatever happened to the read buffer, and its outcome is the
    one the write block gives on its own. *)
Theorem tuneUDPBuffer_one_outcome_per_direction (conn : UDPConn) (log : Logger) :
  exists r wr,
    logged (tuneReadBuffer conn).1 = [r] /\
    logged (tuneWriteBuffer conn).1 = [wr] /\
    logged (tuneUDPBuffer (Some conn) (Some log)).1 = [tuningStarted; r; wr].
Proof.
  destruct (tuneReadBuffer_one_entry conn) as [r Hr].
  destruct (tuneWriteBuffer_one_entry conn) as [wr Hw].
  exists r, wr. split; [exact Hr|]. split; [exact Hw|].
  rewrite tuneUDPBuffer_trace. unfold logged in *.
  rewrite !omap_app, Hr, Hw. reflexivity.
Qed.

Lemma tuneUDPBuffer_one_outcome_per_direction_witness :
  length (logged (tuneUDPBuffer (Some closedConn) (Some zapLogger)).1) = 3%nat.
Proof.
  destruct (tuneUDPBuffer_one_outcome_per_direction closedConn zapLogger)
    as (r & wr & _ & _ & E).
  rewrite E. reflexivity.
Defined.

Lemma setCalls_read (conn : UDPConn) :
  setCalls (tuneReadBuffer conn).1 = [CallSetReadBuffer 8388608].
Proof.
  unfold tuneReadBuffer, getUDPReadBufferSize, getSockOptRcvBuf, bind, call,
    logWarn, logInfo, ret.
  change libyalinkDesiredReadBuffer with 8388608%Z.
  destruct (SetReadBuffer conn 8388608); [reflexivity|].
  destruct (SyscallConn conn); [destruct (_ <? _)%Z; reflexivity|].
  destruct (Control conn); [destruct (_ <? _)%Z; reflexivity|].
  destruct (Getsockopt conn SO_RCVBUF); destruct (_ <? _)%Z; reflexivity.
Qed.

Lemma setCalls_write (conn : UDPConn) :
  setCalls (tuneWriteBuffer conn).1 = [CallSetWriteBuffer 8388608].
Proof.
  unfold tuneWriteBuffer, getUDPWriteBufferSize, getSockOptSndBuf, bind, call,
    logWarn, logInfo, ret.
  change libyalinkDesiredWriteBuffer with 8388608%Z.
  destruct (SetWriteBuffer conn 8388608); [reflexivity|].
  destruct (SyscallConn conn); [destruct (_ <? _)%Z; reflexivity|].
  destruct (Control conn); [destruct (_ <? _)%Z; reflexivity|].
  destruct (Getsockopt conn SO_SNDBUF); destruct (_ <? _)%Z; reflexivity.
Qed.

(** X14: the tuner asks the kernel to resize each buffer exactly once, the
    read buffer first, both times for 8388608 bytes; it never repeats a
    request, whether the request failed, fell short or was met. *)
Theorem tuneUDPBuffer_never_retries (conn : UDPConn) (log : Logger) :
  setCalls (tuneUDPBuffer (Some conn) (Some log)).1
  = [CallSetReadBuffer 8388608; CallSetWriteBuffer 8388608].
Proof.
  rewrite tuneUDPBuffer_trace. unfold setCalls.
  rewrite !omap_app. fold (setCalls (tuneReadBuffer conn).1).
  fold (setCalls (tuneWriteBuffer conn).1).
  rewrite setCalls_read, setCalls_write. reflexivity.
Qed.

Lemma tuneUDPBuffer_never_retries_witness :
  setCalls (tuneUDPBuffer (Some closedConn) (Some zapLogger)).1
  = [CallSetReadBuffer 8388608; CallSetWriteBuffer 8388608].
Proof. exact (tuneUDPBuffer_never_retries closedConn zapLogger). Defined.

Lemma getUDPReadBufferSize_failed (conn : UDPConn) :
  SyscallConn conn <> None \/ Control conn <> None \/
  (exists e, Getsockopt conn SO_RCVBUF = inl e) ->
  (getUDPReadBufferSize conn).2 = 0%Z.
Proof.
  unfold getUDPReadBufferSize, getSockOptRcvBuf, bind, call, ret.
  intros [H|[H|[e H]]].
  - destruct (SyscallConn conn); [reflexivity | contradiction].
  - destruct (SyscallConn conn); [reflexivity|].
    destruct (Control conn); [reflexivity | contradiction].
  - destruct (SyscallConn conn); [reflexivity|].
    destruct (Control conn); [reflexivity|]. rewrite H. reflexivity.
Qed.

Lemma getUDPWriteBufferSize_failed (conn : UDPConn) :
  SyscallConn conn <> None \/ Control conn <> None \/
  (exists e, Getsockopt conn SO_SNDBUF = inl e) ->
  (getUDPWriteBufferSize conn).2 = 0%Z.
Proof.
  unfold getUDPWriteBufferSize, getSockOptSndBuf, bind, call, ret.
  intros [H|[H|[e H]]].
  - destruct (SyscallConn conn); [reflexivity | contradiction].
  - destruct (SyscallConn conn); [reflexivity|].
    destruct (Control conn); [reflexivity | contradiction].
  - destruct (SyscallConn conn); [reflexivity|].
    destruct (Control conn); [reflexivity|]. rewrite H. reflexivity.
Qed.

(** X15: when a buffer was set but its size cannot be read back (the raw
    connection is unavailable, the control call fails, or the socket option
    cannot be read), the tuner takes the granted size to be 0 and logs the
    shortfall warning with [0B] and [granted_bytes] 0, for the read buffer
    and for the write buffer alike. *)
Theorem read_back_failure_logged_as_zero (conn : UDPConn) :
  (SetReadBuffer conn 8388608 = None ->
   SyscallConn conn <> None \/ Control conn <> None \/
   (exists e, Getsockopt conn SO_RCVBUF = inl e) ->
   logged (tuneReadBuffer conn).1
   = [{| lvl := WarnLevel;
         msg := "[LibyaLink] Requested 8MB read buffer -> OS granted 0B. Warning: Run the tuning script to unlock full speed. See docs/libya_tuning.md";
         fields := [zapInt "requested_bytes" 8388608;
                    zapInt "granted_bytes" 0] |}]) /\
  (SetWriteBuffer conn 8388608 = None ->
   SyscallConn conn <> None \/ Control conn <> None \/
   (exists e, Getsockopt conn SO_SNDBUF = inl e) ->
   logged (tuneWriteBuffer conn).1
   = [{| lvl := WarnLevel;
         msg := "[LibyaLink] Requested 8MB write buffer -> OS granted 0B. Warning: Run the tuning script to unlock full speed. See docs/libya_tuning.md";
         fields := [zapInt "requested_bytes" 8388608;
                    zapInt "granted_bytes" 0] |}]).
Proof.
  split; intros Hset Hfail.
  - pose proof (getUDPReadBufferSize_failed conn Hfail) as Hz.
    unfold tuneReadBuffer. change libyalinkDesiredReadBuffer with 8388608%Z.
    rewrite BuffersSpec.logged_bind. unfold call. cbn [fst snd].
    rewrite Hset. cbn [fst snd].
    rewrite BuffersSpec.logged_bind, BuffersSpec.getUDPReadBufferSize_silent, Hz.
    reflexivity.
  - pose proof (getUDPWriteBufferSize_failed conn Hfail) as Hz.
    unfold tuneWriteBuffer. change libyalinkDesiredWriteBuffer with 8388608%Z.
    rewrite BuffersSpec.logged_bind. unfold call. cbn [fst snd].
    rewrite Hset. cbn [fst snd].
    rewrite BuffersSpec.logged_bind, BuffersSpec.getUDPWriteBufferSize_silent, Hz.
    reflexivity.
Qed.

Lemma read_back_failure_logged_as_zero_witness :
  map msg (logged (tuneReadBuffer opaqueConn).1)
  = ["[LibyaLink] Requested 8MB read buffer -> OS granted 0B. Warning: Run the tuning script to unlock full speed. See docs/libya_tuning.md"].
Proof.
  rewrite (proj1 (read_back_failure_logged_as_zero opaqueConn) eq_refl).
  - reflexivity.
  - right. right. eexists. reflexivity.
Defined.

(** [%d] never prints the two bytes [8M]. *)
Lemma itoa_not_8M (z : Z) : itoa z <> "8M".
Proof.
  unfold itoa. destruct (Z.to_int z) as [d|d]; cbn [NilEmpty.string_of_int].
  - destruct d; cbn [NilEmpty.string_of_uint]; try discriminate.
    destruct d; cbn [NilEmpty.string_of_uint]; discriminate.
  - discriminate.
Qed.

(** X16: in a shortfall the two sizes the warning prints are never the
    same text: for every granted size below 8388608, [formatBytes] of it
    differs from [formatBytes] of the request, although both are rounded
    down to whole units. *)
Theorem shortfall_sizes_print_differently (granted : Z) :
  (granted < libyalinkDesiredReadBuffer)%Z ->
  formatBytes granted <> formatBytes libyalinkDesiredReadBuffer.
Proof.
  change libyalinkDesiredReadBuffer with 8388608%Z.
  change (formatBytes 8388608) with "8MB".
  intros Hlt. unfold formatBytes. cbv zeta.
  change (1024 * 1024)%Z with 1048576%Z.
  destruct (Z.geb_spec granted 1048576) as [Hmb|Hmb].
  - assert (Hq : (1 <= granted ÷ 1048576 <= 7)%Z).
    { rewrite Z.quot_div_nonneg by lia. split.
      - apply Z.div_le_lower_bound; lia.
      - apply Z.lt_succ_r. apply Z.div_lt_upper_bound; lia. }
    assert (Hc : (granted ÷ 1048576 = 1 \/ granted ÷ 1048576 = 2 \/
                  granted ÷ 1048576 = 3 \/ granted ÷ 1048576 = 4 \/
                  granted ÷ 1048576 = 5 \/ granted ÷ 1048576 = 6 \/
                  granted ÷ 1048576 = 7)%Z) by lia.
    destruct Hc as [->|[->|[->|[->|[->|[->| ->]]]]]]; discriminate.
  - destruct (Z.geb_spec granted 1024) as [Hkb|Hkb].
    + destruct (itoa (granted ÷ 1024)) as [|c1 [|c2 [|c3 s]]];
        cbn [String.append]; try discriminate.
      destruct s; cbn [String.append]; discriminate.
    + pose proof (itoa_not_8M granted) as Hn.
      destruct (itoa granted) as [|c1 [|c2 [|c3 s]]];
        cbn [String.append]; try discriminate.
      * intros H. apply Hn. injection H as H1 H2. rewrite H1, H2. reflexivity.
      * destruct s; cbn [String.append]; discriminate.
Qed.

Lemma shortfall_sizes_print_differently_witness :
  formatBytes 8388607 <> formatBytes libyalinkDesiredReadBuffer.
Proof.
  apply shortfall_sizes_print_differently. reflexivity.
Defined.

End TunerSpec.

(** ** Properties of the client configuration generator *)

Module GenClientSpec.
Import Go GenClient.




(** The trace once the preset is known and both configurations marshalled. *)
Lemma runGenClient_marshalled env f preset sb native :
  bandwidthPresets !! genClientPreset f = Some preset ->
  MarshalIndentSingBox env (singBoxCfgOf env f preset) = inr sb ->
  MarshalIndentNative env (nativeConfigOf f preset) = inr native ->
  exists progress,
    runGenClient env f
    = progress ++
      (let output := outputOf (genClientPreset f) preset sb native in
       if negb (String.eqb (genClientOutput f) "") then
         FileWrite (genClientOutput f) output 420
         :: match WriteFile env (genClientOutput f) output 420 with
            | Some err =>
                [Stderr ("Error writing to " +:+ genClientOutput f
                         +:+ ": " +:+ errText err +:+ nl);
                 Exit 1]
            | None =>
                Stderr ("  âœ… Configuration written to: "
                        +:+ genClientOutput f +:+ nl)
                :: closing
            end
       else Stdout output :: closing) /\
    stdoutOf progress = [] /\ filesOf progress = [] /\
    (forall rest, exitCode (progress ++ rest) = exitCode rest).
Proof.
  intros Hp Hs Hn. unfold runGenClient. rewrite Hp, Hs, Hn.
  rewrite app_assoc. eexists. split; [reflexivity|].
  split; [reflexivity|]. split; [reflexivity|]. intros rest. reflexivity.
Qed.

(** X18: once the preset is known and both configurations are marshalled,
    the generated text goes to exactly one place.  Without [--output] it is
    printed once to standard output, no file is touched and the status is
    0.  With [--output] nothing is printed to standard output; the same
    text is written once to that path with mode 0644, and the status is 0
    exactly when the write succeeded. *)
Theorem output_goes_to_one_place
    (env : Env) (f : Flags) (preset : bandwidthPreset) (sb native : string) :
  bandwidthPresets !! genClientPreset f = Some preset ->
  MarshalIndentSingBox env (singBoxCfgOf env f preset) = inr sb ->
  MarshalIndentNative env (nativeConfigOf f preset) = inr native ->
  (genClientOutput f = "" ->
   stdoutOf (runGenClient env f)
   = [outputOf (genClientPreset f) preset sb native] /\
   filesOf (runGenClient env f) = [] /\
   exitCode (runGenClient env f) = 0%Z) /\
  (genClientOutput f <> "" ->
   stdoutOf (runGenClient env f) = [] /\
   filesOf (runGenClient env f)
   = [(genClientOutput f, outputOf (genClientPreset f) preset sb native,
       420%Z)] /\
   (exitCode (runGenClient env f) = 0%Z <->
    WriteFile env (genClientOutput f)
      (outputOf (genClientPreset f) preset sb native) 420 = None)).
Proof.
  intros Hp Hs Hn.
  destruct (runGenClient_marshalled env f preset sb native Hp Hs Hn)
    as (progress & -> & Ho & Hf & He).
  cbv zeta. unfold stdoutOf, filesOf in *. split.
  - intros ->. cbn [String.eqb negb]. rewrite !omap_app, Ho, Hf, He.
    repeat split; reflexivity.
  - intros Hout. apply String.eqb_neq in Hout. rewrite Hout. cbn [negb].
    rewrite !omap_app, Ho, Hf, He.
    destruct (WriteFile env _ _ _) as [err|].
    + repeat split; try reflexivity; intros H; discriminate H.
    + repeat split; reflexivity.
Qed.

Lemma output_goes_to_one_place_witness :
  stdoutOf (runGenClient sampleEnv (sampleFlags "4g" ""))
  = [outputOf "4g" {| Up := "1 mbps"; Down := "10 mbps" |}
       "{sing-box}" "{native}"] /\
  filesOf (runGenClient sampleEnv (sampleFlags "fiber" "client.json"))
  = [("client.json",
      outputOf "fiber" {| Up := "20 mbps"; Down := "100 mbps" |}
        "{sing-box}" "{native}", 420%Z)].
Proof.
  split.
  - destruct (output_goes_to_one_place sampleEnv (sampleFlags "4g" "")
                {| Up := "1 mbps"; Down := "10 mbps" |}
                "{sing-box}" "{native}" eq_refl eq_refl eq_refl) as [H _].
    apply H. reflexivity.
  - destruct (output_goes_to_one_place sampleEnv
                (sampleFlags "fiber" "client.json")
                {| Up := "20 mbps"; Down := "100 mbps" |}
                "{sing-box}" "{native}" eq_refl eq_refl eq_refl) as [_ H].
    apply H. discriminate.
Defined.

(** X19: the command ends with status 0 or 1.  It ends with 0 exactly when
    the preset is known, both configurations marshal, and the text is
    either printed or written without error; whenever it ends with 1,
    nothing at all was printed to standard output. *)
Theorem exit_status_reflects_failure (env : Env) (f : Flags) :
  (exitCode (runGenClient env f) = 0%Z \/
   exitCode (runGenClient env f) = 1%Z) /\
  (exitCode (runGenClient env f) = 1%Z ->
   stdoutOf (runGenClient env f) = []) /\
  (exitCode (runGenClient env f) = 0%Z <->
   exists preset sb native,
     bandwidthPresets !! genClientPreset f = Some preset /\
     MarshalIndentSingBox env (singBoxCfgOf env f preset) = inr sb /\
     MarshalIndentNative env (nativeConfigOf f preset) = inr native /\
     (genClientOutput f = "" \/
      WriteFile env (genClientOutput f)
        (outputOf (genClientPreset f) preset sb native) 420 = None)).
Proof.
  destruct (bandwidthPresets !! genClientPreset f) as [preset|] eqn:Hp.
  2: { unfold runGenClient. rewrite Hp. cbn [exitCode stdoutOf omap].
       split; [right; reflexivity|]. split; [reflexivity|]. split.
       - intros H; discriminate H.
       - intros (p & _ & _ & H & _). discriminate H. }
  destruct (MarshalIndentSingBox env (singBoxCfgOf env f preset))
    as [e1|sb] eqn:Hs.
  { unfold runGenClient. rewrite Hp, Hs.
    split; [right; reflexivity|]. split; [reflexivity|]. split.
    - intros H; discriminate H.
    - intros (p & s & n & Hp' & Hs' & _).
      injection Hp' as <-. rewrite Hs in Hs'. discriminate Hs'. }
  destruct (MarshalIndentNative env (nativeConfigOf f preset))
    as [e2|native] eqn:Hn.
  { unfold runGenClient. rewrite Hp, Hs, Hn.
    split; [right; reflexivity|]. split; [reflexivity|]. split.
    - intros H; discriminate H.
    - intros (p & s & n & Hp' & _ & Hn' & _).
      injection Hp' as <-. rewrite Hn in Hn'. discriminate Hn'. }
  destruct (runGenClient_marshalled env f preset sb native Hp Hs Hn)
    as (progress & -> & Ho & _ & He).
  cbv zeta. unfold stdoutOf in *. rewrite omap_app, Ho, He.
  destruct (String.eqb_spec (genClientOutput f) "") as [E|E]; cbn [negb].
  - split; [left; reflexivity|]. split; [intros H; discriminate H|]. split.
    + intros _. exists preset, sb, native. auto.
    + intros _. reflexivity.
  - destruct (WriteFile env (genClientOutput f) _ 420) as [err|] eqn:Hw.
    + split; [right; reflexivity|]. split; [reflexivity|]. split.
      * intros H; discriminate H.
      * intros (p & s & n & Hp' & Hs' & Hn' & [H|H]); [contradiction|].
        injection Hp' as <-. rewrite Hs in Hs'. injection Hs' as <-.
        rewrite Hn in Hn'. injection Hn' as <-. congruence.
    + split; [left; reflexivity|]. split; [intros H; discriminate H|]. split.
      * intros _. exists preset, sb, native. auto.
      * intros _. reflexivity.
Qed.

(** X20: the two configurations the command generates always describe the
    same server.  The sing-box outbound and the native configuration carry
    the same password and the same insecure flag; the native server is the
    outbound's server and port joined by a colon; both carry the same
    server name, which is [--sni] when given, else the server when
    [--insecure] is on, else empty; and both carry the salamander
    obfuscation with the same password when [--obfs] is given and none at
    all when it is not. *)
Theorem generated_configs_agree
    (env : Env) (f : Flags) (preset : bandwidthPreset) :
  exists o direct,
    Outbounds (singBoxCfgOf env f preset) = [hysteria2Outbound o; direct] /\
    Password o = Auth (nativeConfigOf f preset) /\
    Insecure (TLS o) = clientInsecure (clientTLS (nativeConfigOf f preset)) /\
    clientServer (nativeConfigOf f preset)
    = Server o +:+ ":" +:+ itoa (ServerPort o) /\
    ServerName (TLS o) = SNI (clientTLS (nativeConfigOf f preset)) /\
    ServerName (TLS o)
    = (if String.eqb (genClientSNI f) ""
       then if genClientInsecure f then genClientServer f else ""
       else genClientSNI f) /\
    (genClientObfs f = "" ->
     Obfs o = None /\ clientObfs (nativeConfigOf f preset) = None) /\
    (genClientObfs f <> "" ->
     Obfs o = Some {| obfsType := "salamander";
                      obfsPassword := genClientObfs f |} /\
     clientObfs (nativeConfigOf f preset)
     = Some {| clientObfsType := "salamander";
               SalamanderPassword := genClientObfs f |}).
Proof.
  unfold singBoxCfgOf, nativeConfigOf, parseBandwidthToMbps, serverAddrOf, sniOf.
  cbv zeta. cbn [Outbounds].
  eexists _, _. split; [reflexivity|].
  cbn [Password Auth Insecure TLS clientInsecure clientTLS clientServer Server
       ServerPort ServerName SNI Obfs clientObfs].
  repeat split.
  - destruct (String.eqb_spec (genClientSNI f) "") as [E|E];
      destruct (genClientInsecure f); cbn [andb]; try reflexivity.
    exact E.
  - rewrite H. reflexivity.
  - rewrite H. reflexivity.
  - apply String.eqb_neq in H. rewrite H. reflexivity.
  - apply String.eqb_neq in H. rewrite H. reflexivity.
Qed.

Lemma generated_configs_agree_witness :
  exists o direct,
    Outbounds (singBoxCfgOf sampleEnv (sampleFlags "4g" "")
                 {| Up := "1 mbps"; Down := "10 mbps" |})
    = [hysteria2Outbound o; direct] /\
    ServerName (TLS o) = "1.2.3.4" /\ Obfs o = None.
Proof.
  destruct (generated_configs_agree sampleEnv (sampleFlags "4g" "")
              {| Up := "1 mbps"; Down := "10 mbps" |})
    as (o & direct & Ho & _ & _ & _ & _ & Hsni & Hobfs & _).
  exists o, direct. split; [exact Ho|]. split; [exact Hsni|].
  apply Hobfs. reflexivity.
Defined.

End GenClientSpec.
